(** * Dashboard video downloader: format selection and download flow

    A shallow embedding of [src/dashboard/pages/🎥_Video.py]:
    the class [FormatSelector] (the format-selection callback handed to the
    extraction engine) and the class [Downloader] (URL check, engine calls,
    status check).

    Conventions.
    - A Python [str] is a [string]; every character is a code point below
      256, so the regular expression [\d] matches exactly ['0'] .. ['9'].
    - A format descriptor is a Python dict whose values are strings; the
      selector reads the six keys [format_id], [vcodec], [acodec], [ext],
      [format_note], [protocol] by subscript, which raises [KeyError] on a
      descriptor that lacks the key.  [Raw] is the selector over such dicts.
      [Format] is the record of a descriptor that carries the six keys, and
      [FormatSelector] the selector over catalogs of such descriptors;
      [Raw_parser_agrees] proves that the two compute the same there.
    - A Python exception is a value of [exn]; a call either returns a value
      or raises ([result]).
    - Methods of [FormatSelector] that read [self] run in a state-and-error
      monad over the selector object, so that what a call does to the
      object is visible in its type. *)

From Stdlib Require Import String Ascii List ZArith Lia Bool.
Import ListNotations.
Local Open Scope Z_scope.
Local Open Scope string_scope.

(** ** Python values and builtins *)

Module Py.

Inductive exn : Type :=
| ValueError (msg : string)
| KeyError (key : string)
| StopIteration
| RuntimeError (msg : string)
| DownloadError (msg : string).

Inductive result (A : Type) : Type :=
| Ok (a : A)
| Raise (e : exn).
Arguments Ok {A} a.
Arguments Raise {A} e.

(** Truth value of a string: the empty string is false. *)
Definition truthy (s : string) : bool :=
  match s with
  | EmptyString => false
  | String _ _ => true
  end.

(** [s.startswith(p)] *)
Definition startswith (s p : string) : bool := String.prefix p s.

(** [x in s] for strings: [x] occurs in [s] as a contiguous substring. *)
Fixpoint str_in (x s : string) : bool :=
  String.prefix x s ||
  match s with
  | EmptyString => false
  | String _ s' => str_in x s'
  end.

(** [x in l] for a list of strings. *)
Definition list_in (x : string) (l : list string) : bool :=
  existsb (String.eqb x) l.

(** [any(iterable)] *)
Definition any (l : list bool) : bool := existsb (fun b => b) l.

(** A dict with string keys, in insertion order. *)
Definition dict (V : Type) : Type := list (string * V).

Fixpoint dict_get {V} (d : dict V) (k : string) : option V :=
  match d with
  | [] => None
  | (k', v) :: d' => if String.eqb k' k then Some v else dict_get d' k
  end.

(** [d[k]]: raises [KeyError(k)] when the key is absent. *)
Definition getitem {V} (d : dict V) (k : string) : result V :=
  match dict_get d k with
  | Some v => Ok v
  | None => Raise (KeyError k)
  end.

(** [d.values()] *)
Definition values {V} (d : dict V) : list V := map snd d.

(** [next(x for x in l if p(x))]: the first element satisfying [p];
    an exhausted generator raises [StopIteration]. *)
Definition next {A} (p : A -> bool) (l : list A) : result A :=
  match find p l with
  | Some x => Ok x
  | None => Raise StopIteration
  end.

(** [max(l, key=key)]: the first element whose key is maximal; the running
    best is replaced only by a strictly larger key. *)
Fixpoint max_from {A} (key : A -> Z) (best : A) (l : list A) : A :=
  match l with
  | [] => best
  | x :: l' => if (key best <? key x)%Z then max_from key x l' else max_from key best l'
  end.

Definition max {A} (key : A -> Z) (l : list A) : result A :=
  match l with
  | [] => Raise (ValueError "max() arg is an empty sequence")
  | x :: l' => Ok (max_from key x l')
  end.

(** [re.compile("\d").match(value)]: the match is anchored at the start and
    consumes one decimal digit. *)
Definition is_digit (c : ascii) : bool :=
  let n := nat_of_ascii c in (48 <=? n)%nat && (n <=? 57)%nat.

Definition match_digit (value : string) : option string :=
  match value with
  | String c _ => if is_digit c then Some (String c EmptyString) else None
  | EmptyString => None
  end.

(** [int(s)] on a string of decimal digits (most significant first). *)
Fixpoint int_from (acc : Z) (s : string) : Z :=
  match s with
  | EmptyString => acc
  | String c s' => int_from (10 * acc + (Z.of_nat (nat_of_ascii c) - 48))%Z s'
  end.

Definition int (s : string) : Z := int_from 0 s.

End Py.
Import Py.

(** [EXTENSIONS] (module level) *)
Definition EXTENSIONS : dict (list string) :=
  [ ("video", ["mp4"; "webm"]);
    ("audio", ["mp3"; "m4a"; "webm"; "wav"]) ].

(** A format descriptor of the catalog that carries the six keys the
    selector reads (the dict itself is [Descriptor], below). *)
Record Format : Type := mkFormat {
  format_id : string;
  vcodec : string;
  acodec : string;
  ext : string;
  format_note : string;
  protocol : string
}.

(** The download context handed to the selector; the key [formats] may be
    absent. *)
Record Ctx : Type := mkCtx { formats : option (list Format) }.

(** [ctx.get("formats", [])] *)
Definition ctx_get_formats (ctx : Ctx) : list Format :=
  match formats ctx with
  | Some l => l
  | None => []
  end.

(** The dict yielded by the selector. *)
Record Selection : Type := mkSelection {
  sel_format_id : string;
  sel_ext : string;
  requested_formats : list Format;
  sel_protocol : string
}.

(** ** class FormatSelector *)

Module FormatSelector.

(** The instance: its only attribute is [extension]. *)
Record t : Type := mk { extension : string }.

Definition RESOLUTIONS : list string :=
  ["1080p"; "720p"; "480p"; "360p"; "240p"; "144p"].

Definition MERGE : dict string := [("mp4", "m4a"); ("webm", "webm")].

(** [__init__(self, extension="")]: the body is [self.extension = ""]. *)
Definition __init__ (extension : string) : t := {| extension := "" |}.

(** State-and-error monad over the instance. *)
Definition M (A : Type) : Type := t -> result A * t.

Definition ret {A} (a : A) : M A := fun self => (Ok a, self).

Definition bind {A B} (m : M A) (k : A -> M B) : M B :=
  fun self =>
    match m self with
    | (Ok a, self') => k a self'
    | (Raise e, self') => (Raise e, self')
    end.

Definition raise {A} (e : exn) : M A := fun self => (Raise e, self).

Definition lift {A} (r : result A) : M A := fun self => (r, self).

(** Read [self.extension]. *)
Definition self_extension : M string := fun self => (Ok (extension self), self).

Notation "x <- m ;; k" := (bind m (fun x => k))
  (at level 61, m at next level, right associativity).

(** [_get_positive_int]: [int(result.group())] of the one-digit match,
    [0] when there is no match. *)
Definition _get_positive_int (value : string) : Z :=
  match match_digit value with
  | Some group => int group
  | None => 0
  end.

Definition get_highest_available_quality (formats : list Format) : result string :=
  Py.max _get_positive_int (map format_note formats).

(** The filter of the generator expression in [retrieve_video_format]. *)
Definition video_match (extension quality : string) (f : Format) : bool :=
  negb (vcodec f =? "none")
  && (acodec f =? "none")
  && (if truthy extension then ext f =? extension else true)
  && (format_note f =? quality).

Definition retrieve_video_format
    (formats : list Format) (quality : string) (extension : string) : M Format :=
  extension <- (if negb (truthy extension) then self_extension else ret extension) ;;
  lift (next (video_match extension quality) formats).

(** The filter of the generator expression in [retrieve_audio_format]. *)
Definition audio_match (extension : string) (f : Format) : bool :=
  (vcodec f =? "none")
  && negb (acodec f =? "none")
  && (if truthy extension then ext f =? extension else true).

Definition retrieve_audio_format
    (formats : list Format) (extension : string) : M Format :=
  extension <- (if negb (truthy extension) then self_extension else ret extension) ;;
  lift (next (audio_match extension) formats).

(** The walrus test of [parser]: keep the highest label when it is one of
    [RESOLUTIONS], otherwise use ["1080p"]. *)
Definition clamp_quality (quality : string) : string :=
  if negb (list_in quality RESOLUTIONS) then "1080p" else quality.

(** The body of the generator [parser], up to its single [yield]. *)
Definition parser_body (ctx : Ctx) : M Selection :=
  e <- self_extension ;;
  if truthy e && negb (list_in e (concat (values EXTENSIONS))) then
    raise (ValueError ("Extension " ++ e ++ " is not available."))
  else
    let formats := rev (ctx_get_formats ctx) in
    audio_exts <- lift (getitem EXTENSIONS "audio") ;;
    e <- self_extension ;;
    qa <- (if list_in e audio_exts then ret ("144p", true)
           else q <- lift (get_highest_available_quality formats) ;;
                ret (clamp_quality q, false)) ;;
    let quality := fst qa in
    let is_audio := snd qa in
    video <- retrieve_video_format formats quality "" ;;
    extension <- (if is_audio then self_extension
                  else lift (getitem MERGE (ext video))) ;;
    audio <- retrieve_audio_format formats extension ;;
    ret {| sel_format_id := format_id video ++ "+" ++ format_id audio;
           sel_ext := ext video;
           requested_formats := [video; audio];
           sel_protocol := protocol video ++ "+" ++ protocol audio |}.

(** Running the generator to its first item.  A [StopIteration] raised
    inside a generator body leaves the generator as a [RuntimeError]. *)
Definition parser (ctx : Ctx) : M Selection :=
  fun self =>
    match parser_body ctx self with
    | (Raise StopIteration, self') =>
        (Raise (RuntimeError "generator raised StopIteration"), self')
    | r => r
    end.

End FormatSelector.

(** [select]: the selection as the download flow performs it, through a
    selector constructed for the requested extension. *)
Definition select (catalog : list Format) (requestedExtension : string)
  : result Selection :=
  fst (FormatSelector.parser (mkCtx (Some catalog))
         (FormatSelector.__init__ requestedExtension)).

(** The error kinds of the selection, as the exceptions that carry them. *)
Definition UnavailableExtensionError (e : string) : exn :=
  ValueError ("Extension " ++ e ++ " is not available.").

Definition NoMatchingFormatError : exn :=
  RuntimeError "generator raised StopIteration".

(** ** class Downloader *)

(** The fields of the engine's metadata that the download flow reads. *)
Record Metadata : Type := mkMetadata {
  title : string;
  thumbnail : option string
}.

(** Post-processors attached by the page before the download. *)
Inductive Processor : Type :=
| FFmpegExtractAudioPP (preferredcodec : string)
| FFmpegVideoConvertorPP (preferedformat : string).

(** The options dict given to the engine. *)
Record Options : Type := mkOptions {
  opt_format : Ctx -> result Selection;
  opt_outtmpl : string;
  opt_verbose : bool
}.

(** The extraction engine ([yt_dlp.YoutubeDL]) as the flow uses it:
    [extract_info(url, download=False, process=False)], and
    [download([url])] run with the post-processors added so far, which
    returns the engine's status code.  Either call may raise.  The engine
    is modelled by what its calls return; what it does in place to the
    options dict it is handed is outside this model. *)
Record YoutubeDL : Type := mkYoutubeDL {
  extract_info : string -> result Metadata;
  download : list Processor -> list string -> result Z
}.

Module Downloader.

Record t : Type := mk {
  url : string;
  extension : string;
  storage : string;
  banned : list string;
  formatselector : FormatSelector.t;
  ydl_opts : Options;
  metadata : option Metadata;
  file_path : option string
}.

Definition __init__ (url extension storage : string) (verbose : bool) : t :=
  let formatselector := FormatSelector.__init__ extension in
  {| url := url;
     extension := extension;
     storage := storage;
     banned := ["porn"; "xxx"];
     formatselector := formatselector;
     ydl_opts :=
       {| opt_format := fun ctx => fst (FormatSelector.parser ctx formatselector);
          opt_outtmpl := storage ++ "/%(title)s.%(ext)s";
          opt_verbose := verbose |};
     metadata := None;
     file_path := None |}.

Definition set_metadata (self : t) (m : Metadata) : t :=
  {| url := url self; extension := extension self; storage := storage self;
     banned := banned self; formatselector := formatselector self;
     ydl_opts := ydl_opts self; metadata := Some m; file_path := file_path self |}.

Definition set_file_path (self : t) (p : string) : t :=
  {| url := url self; extension := extension self; storage := storage self;
     banned := banned self; formatselector := formatselector self;
     ydl_opts := ydl_opts self; metadata := metadata self; file_path := Some p |}.

(** [_check_url]: [not any((startswith, *[x not in url ...], watch, you))]. *)
Definition _check_url (self : t) (url : string) : bool :=
  negb (any ([startswith url "https"]
             ++ map (fun x => negb (str_in x url)) (banned self)
             ++ [str_in "watch" url; str_in "you" url])%list).

Section Engine.

(** The constructor of the engine, from the options dict. *)
Variable ytdl_YoutubeDL : Options -> YoutubeDL.

(** [download_video]: the outcome of the call and the instance after it. *)
Definition download_video (self : t) (url : string) (processors : list Processor)
  : result unit * t :=
  if _check_url self url then
    (Raise (ValueError "Recieved an invalid URL, stopping..."), self)
  else
    let video_downloader := ytdl_YoutubeDL (ydl_opts self) in
    match extract_info video_downloader url with
    | Raise e => (Raise e, self)
    | Ok m =>
        let self := set_metadata self m in
        match download video_downloader processors [url] with
        | Raise e => (Raise e, self)
        | Ok error_code =>
            if (error_code =? 1)%Z then
              (Raise (DownloadError "Video download failed."), self)
            else
              (Ok tt,
               set_file_path self
                 (storage self ++ "/" ++ title m ++ "." ++ extension self))
        end
    end.

End Engine.

End Downloader.

(** The error kinds of the download flow. *)
Definition InvalidUrlError : exn :=
  ValueError "Recieved an invalid URL, stopping...".

Definition DownloadFailedError : exn :=
  DownloadError "Video download failed.".

(** ** Vocabulary of the specification *)

(** A format is video-only when it has a video codec and no audio codec,
    audio-only in the reverse case. *)
Definition video_only (f : Format) : bool :=
  negb (vcodec f =? "none") && (acodec f =? "none").

Definition audio_only (f : Format) : bool :=
  (vcodec f =? "none") && negb (acodec f =? "none").

(** The two formats of a selection, in the order of [requested_formats]. *)
Definition videoFormat (r : Selection) : option Format :=
  nth_error (requested_formats r) 0.

Definition audioFormat (r : Selection) : option Format :=
  nth_error (requested_formats r) 1.

(** The error kinds named by the specification. *)
Definition specified_error_kind (e : exn) : Prop :=
  (exists x, e = UnavailableExtensionError x)
  \/ e = NoMatchingFormatError
  \/ e = InvalidUrlError
  \/ e = DownloadFailedError.

(** The quality a no-preference request derives from the catalog: the
    highest label, clamped; undefined for an empty catalog. *)
Definition target_quality (catalog : list Format) : option string :=
  match FormatSelector.get_highest_available_quality (rev catalog) with
  | Ok q => Some (FormatSelector.clamp_quality q)
  | Raise _ => None
  end.

(** The video-only formats of the catalog at the target quality. *)
Definition target_videos (catalog : list Format) : list Format :=
  match target_quality catalog with
  | Some q => filter (fun v => video_only v && (format_note v =? q)) catalog
  | None => []
  end.

(** The catalog holds a video-only/audio-only pair that meets the derived
    constraints of a no-preference request: the video at the target quality
    and the audio in the container paired with the video's by [MERGE]. *)
Definition has_split (catalog : list Format) : bool :=
  existsb
    (fun v =>
       match dict_get FormatSelector.MERGE (ext v) with
       | Some paired => existsb (fun a => audio_only a && (ext a =? paired)) catalog
       | None => false
       end)
    (target_videos catalog).

(** The first video-only format at the target quality, in the best-first
    order of the search, has a container that the merge table knows ([mp4]
    or [webm]); vacuous when the search finds none. *)
Definition first_target_paired (catalog : list Format) : bool :=
  match target_quality catalog with
  | Some q =>
      match find (FormatSelector.video_match "" q) (rev catalog) with
      | Some v =>
          match dict_get FormatSelector.MERGE (ext v) with
          | Some _ => true
          | None => false
          end
      | None => true
      end
  | None => true
  end.

(** The request is an audio-only request: its extension is one of
    [EXTENSIONS["audio"]]. *)
Definition is_audio_request (e : string) : bool :=
  match dict_get EXTENSIONS "audio" with
  | Some l => list_in e l
  | None => false
  end.

(** A monadic computation leaves the selector as it found it. *)
Definition preserves {A} (m : FormatSelector.M A) : Prop :=
  forall self, snd (m self) = self.

(** ** Sample catalogs and engines *)

Definition video_fmt (id e q : string) : Format :=
  mkFormat id "avc1" "none" e q "https".

Definition audio_fmt (id e : string) : Format :=
  mkFormat id "none" "mp4a" e "medium" "https".

Definition combined_fmt (id e q : string) : Format :=
  mkFormat id "avc1" "mp4a" e q "https".

(** Worst to best, as the engine lists them. *)
Definition catalog_hd : list Format :=
  [audio_fmt "140" "m4a"; video_fmt "136" "mp4" "720p"; video_fmt "137" "mp4" "1080p"].

Definition catalog_mixed : list Format :=
  [audio_fmt "249" "webm"; video_fmt "278" "webm" "144p";
   audio_fmt "140" "m4a"; video_fmt "134" "mp4" "360p"].

Definition catalog_webm : list Format :=
  [audio_fmt "251" "webm"; video_fmt "248" "webm" "1080p"].

Definition catalog_combined : list Format :=
  [combined_fmt "18" "mp4" "360p"].

Definition catalog_flv : list Format :=
  [audio_fmt "140" "m4a"; video_fmt "5" "flv" "240p"].

(** Two video-only formats at the same label, the better one in [mp4], and
    no audio format. *)
Definition catalog_video_only : list Format :=
  [video_fmt "5" "flv" "240p"; video_fmt "133" "mp4" "240p"].

(** An engine that reports the metadata [m] and the status [code]. *)
Definition engine_const (m : Metadata) (code : Z) (_ : Options) : YoutubeDL :=
  {| extract_info := fun _ => Ok m;
     download := fun _ _ => Ok code |}.

Definition sample_metadata : Metadata :=
  {| title := "clip"; thumbnail := None |}.

Definition sample_downloader (u e : string) : Downloader.t :=
  Downloader.__init__ u e "./temp" false.

Definition sample_url : string := "https://www.youtube.com/watch?v=abc".

Definition sample_self : Downloader.t := sample_downloader sample_url "mp4".

(** The pair a no-preference request selects from [catalog_hd]. *)
Definition selection_hd : Selection :=
  {| sel_format_id := "136+140";
     sel_ext := "mp4";
     requested_formats := [video_fmt "136" "mp4" "720p"; audio_fmt "140" "m4a"];
     sel_protocol := "https+https" |}.

(** ** util/data.py *)

Module Data.

(** [flatten]: [[item for sublist in l for item in sublist]]. *)
Fixpoint flatten {A} (l : list (list A)) : list A :=
  match l with
  | [] => []
  | sublist :: l' => sublist ++ flatten l'
  end.

(** [map(itemgetter(key), collection)], consumed to its end: the first dict
    without the key raises [KeyError(key)]. *)
Fixpoint map_itemgetter {V} (key : string) (collection : list (dict V))
  : result (list V) :=
  match collection with
  | [] => Ok []
  | d :: collection' =>
      match getitem d key with
      | Raise e => Raise e
      | Ok v =>
          match map_itemgetter key collection' with
          | Raise e => Raise e
          | Ok vs => Ok (v :: vs)
          end
      end
  end.

(** [find_max_dict]: [max(map(itemgetter(key), collection), key=func)].
    [func] ranks a value by an integer; with [func=None] on integer values
    it is the identity. *)
Definition find_max_dict {V} (collection : list (dict V)) (key : string)
    (func : V -> Z) : result V :=
  match map_itemgetter key collection with
  | Raise e => Raise e
  | Ok vs => Py.max func vs
  end.

End Data.

(** ** The selector on raw descriptors

    A descriptor as the engine reports it is a dict; a subscript on a key it
    lacks raises [KeyError].  The module [Raw] is the selector over such
    dicts.  [Format] is the descriptor that carries the six keys the
    selector reads, and on catalogs of such descriptors the selector of
    [FormatSelector] computes what [Raw] computes (see
    [Raw_parser_agrees]). *)

Definition Descriptor : Type := dict string.

(** The descriptor read as a record, when it carries the six keys. *)
Definition of_dict (d : Descriptor) : option Format :=
  match dict_get d "format_id", dict_get d "vcodec", dict_get d "acodec",
        dict_get d "ext", dict_get d "format_note", dict_get d "protocol" with
  | Some i, Some v, Some a, Some x, Some n, Some p => Some (mkFormat i v a x n p)
  | _, _, _, _, _, _ => None
  end.

Definition to_dict (f : Format) : Descriptor :=
  [("format_id", format_id f); ("vcodec", vcodec f); ("acodec", acodec f);
   ("ext", ext f); ("format_note", format_note f); ("protocol", protocol f)].

(** Every descriptor of [ds] carries the six keys, with the values of the
    record at the same place of [fs]. *)
Definition views (ds : list Descriptor) (fs : list Format) : Prop :=
  Forall2 (fun d f => of_dict d = Some f) ds fs.

Module Raw.

Record Ctx : Type := mkCtx { formats : option (list Descriptor) }.

(** [ctx.get("formats", [])] *)
Definition ctx_get_formats (ctx : Ctx) : list Descriptor :=
  match formats ctx with
  | Some l => l
  | None => []
  end.

(** The dict yielded by the selector. *)
Record Selection : Type := mkSelection {
  sel_format_id : string;
  sel_ext : string;
  requested_formats : list Descriptor;
  sel_protocol : string
}.

Definition fmap {A B} (f : A -> B) (r : result A) : result B :=
  match r with
  | Ok a => Ok (f a)
  | Raise e => Raise e
  end.

(** [a and b] on tests that may raise: [b] is evaluated only when [a] is
    true. *)
Definition and_then (a b : result bool) : result bool :=
  match a with
  | Ok true => b
  | Ok false => Ok false
  | Raise e => Raise e
  end.

(** [next(x for x in l if p(x))] for a test that may raise. *)
Fixpoint next {A} (p : A -> result bool) (l : list A) : result A :=
  match l with
  | [] => Raise StopIteration
  | x :: l' =>
      match p x with
      | Raise e => Raise e
      | Ok true => Ok x
      | Ok false => next p l'
      end
  end.

Notation "x <- m ;; k" := (FormatSelector.bind m (fun x => k))
  (at level 61, m at next level, right associativity).

(** [max(map(itemgetter("format_note"), formats), key=self._get_positive_int)] *)
Definition get_highest_available_quality (formats : list Descriptor)
  : result string :=
  match Data.map_itemgetter "format_note" formats with
  | Raise e => Raise e
  | Ok notes => Py.max FormatSelector._get_positive_int notes
  end.

(** The filter of the generator expression in [retrieve_video_format]. *)
Definition video_match (extension quality : string) (f : Descriptor)
  : result bool :=
  and_then (fmap (fun v => negb (v =? "none")) (getitem f "vcodec"))
    (and_then (fmap (fun a => a =? "none") (getitem f "acodec"))
       (and_then
          (if truthy extension
           then fmap (fun x => x =? extension) (getitem f "ext")
           else Ok true)
          (fmap (fun n => n =? quality) (getitem f "format_note")))).

Definition retrieve_video_format
    (formats : list Descriptor) (quality : string) (extension : string)
  : FormatSelector.M Descriptor :=
  extension <- (if negb (truthy extension) then FormatSelector.self_extension
                else FormatSelector.ret extension) ;;
  FormatSelector.lift (next (video_match extension quality) formats).

(** The filter of the generator expression in [retrieve_audio_format]. *)
Definition audio_match (extension : string) (f : Descriptor) : result bool :=
  and_then (fmap (fun v => v =? "none") (getitem f "vcodec"))
    (and_then (fmap (fun a => negb (a =? "none")) (getitem f "acodec"))
       (if truthy extension
        then fmap (fun x => x =? extension) (getitem f "ext")
        else Ok true)).

Definition retrieve_audio_format
    (formats : list Descriptor) (extension : string)
  : FormatSelector.M Descriptor :=
  extension <- (if negb (truthy extension) then FormatSelector.self_extension
                else FormatSelector.ret extension) ;;
  FormatSelector.lift (next (audio_match extension) formats).

(** The body of the generator [parser], up to its single [yield]. *)
Definition parser_body (ctx : Ctx) : FormatSelector.M Selection :=
  e <- FormatSelector.self_extension ;;
  if truthy e && negb (list_in e (concat (values EXTENSIONS))) then
    FormatSelector.raise (ValueError ("Extension " ++ e ++ " is not available."))
  else
    let formats := rev (ctx_get_formats ctx) in
    audio_exts <- FormatSelector.lift (getitem EXTENSIONS "audio") ;;
    e <- FormatSelector.self_extension ;;
    qa <- (if list_in e audio_exts then FormatSelector.ret ("144p", true)
           else q <- FormatSelector.lift (get_highest_available_quality formats) ;;
                FormatSelector.ret (FormatSelector.clamp_quality q, false)) ;;
    let quality := fst qa in
    let is_audio := snd qa in
    video <- retrieve_video_format formats quality "" ;;
    extension <- (if is_audio then FormatSelector.self_extension
                  else video_ext <- FormatSelector.lift (getitem video "ext") ;;
                       FormatSelector.lift (getitem FormatSelector.MERGE video_ext)) ;;
    audio <- retrieve_audio_format formats extension ;;
    video_id <- FormatSelector.lift (getitem video "format_id") ;;
    audio_id <- FormatSelector.lift (getitem audio "format_id") ;;
    video_ext <- FormatSelector.lift (getitem video "ext") ;;
    video_protocol <- FormatSelector.lift (getitem video "protocol") ;;
    audio_protocol <- FormatSelector.lift (getitem audio "protocol") ;;
    FormatSelector.ret
      {| sel_format_id := video_id ++ "+" ++ audio_id;
         sel_ext := video_ext;
         requested_formats := [video; audio];
         sel_protocol := video_protocol ++ "+" ++ audio_protocol |}.

(** Running the generator to its first item.  A [StopIteration] raised
    inside a generator body leaves the generator as a [RuntimeError]. *)
Definition parser (ctx : Ctx) : FormatSelector.M Selection :=
  fun self =>
    match parser_body ctx self with
    | (Raise StopIteration, self') =>
        (Raise (RuntimeError "generator raised StopIteration"), self')
    | r => r
    end.

(** The selection as the download flow performs it. *)
Definition select (catalog : list Descriptor) (requestedExtension : string)
  : result Selection :=
  fst (parser (mkCtx (Some catalog)) (FormatSelector.__init__ requestedExtension)).

End Raw.

(** The raw parser as a function of the selector's extension and of the
    reversed catalog: the steps of [Raw.parser_body] in the error monad
    alone.  [Raw_parser_unfold] proves that [Raw.parser] computes this. *)
Definition rbind {A B} (r : result A) (k : A -> result B) : result B :=
  match r with
  | Ok a => k a
  | Raise e => Raise e
  end.

Definition generator_exit {A} (r : result A) : result A :=
  match r with
  | Raise StopIteration => Raise (RuntimeError "generator raised StopIteration")
  | _ => r
  end.

Definition raw_parser_steps (e : string) (formats : list Descriptor)
  : result Raw.Selection :=
  let is_audio := list_in e ["mp3"; "m4a"; "webm"; "wav"] in
  if truthy e && negb (list_in e (concat (values EXTENSIONS))) then
    Raise (ValueError ("Extension " ++ e ++ " is not available."))
  else
    rbind (if is_audio then Ok "144p"
           else Raw.fmap FormatSelector.clamp_quality
                  (Raw.get_highest_available_quality formats)) (fun quality =>
    rbind (Raw.next (Raw.video_match e quality) formats) (fun video =>
    rbind (if is_audio then Ok e
           else rbind (getitem video "ext") (getitem FormatSelector.MERGE))
          (fun extension =>
    rbind (Raw.next (Raw.audio_match (if truthy extension then extension else e))
             formats) (fun audio =>
    rbind (getitem video "format_id") (fun video_id =>
    rbind (getitem audio "format_id") (fun audio_id =>
    rbind (getitem video "ext") (fun video_ext =>
    rbind (getitem video "protocol") (fun video_protocol =>
    rbind (getitem audio "protocol") (fun audio_protocol =>
    Ok {| Raw.sel_format_id := video_id ++ "+" ++ audio_id;
          Raw.sel_ext := video_ext;
          Raw.requested_formats := [video; audio];
          Raw.sel_protocol := video_protocol ++ "+" ++ audio_protocol |}))))))))).

(** A raw selection and a selection over records hold the same strings and
    the same two formats. *)
Definition selection_agrees (rs : Raw.Selection) (r : Selection) : Prop :=
  Raw.sel_format_id rs = sel_format_id r
  /\ Raw.sel_ext rs = sel_ext r
  /\ Raw.sel_protocol rs = sel_protocol r
  /\ views (Raw.requested_formats rs) (requested_formats r).

(** Two outcomes agree: the same exception, or selections that agree. *)
Definition outcome_agrees (raw : result Raw.Selection) (rec : result Selection)
  : Prop :=
  match raw, rec with
  | Ok rs, Ok r => selection_agrees rs r
  | Raise e, Raise e' => e = e'
  | _, _ => False
  end.

(** The six keys the selector reads on a descriptor. *)
Definition descriptor_keys : list string :=
  ["format_id"; "vcodec"; "acodec"; "ext"; "format_note"; "protocol"].

(** The ways the parser fails on the selector's extension [e] and the
    catalog [catalog]: the unavailable-extension error; the [ValueError] of
    [max] on an empty catalog; the [KeyError] of a key that a descriptor of
    the catalog lacks; the [KeyError] of a container, of a descriptor of the
    catalog, that the merge table lacks; the exhausted search. *)
Definition parser_failure (e : string) (catalog : list Descriptor) (ex : exn)
  : Prop :=
  ex = UnavailableExtensionError e
  \/ (ex = ValueError "max() arg is an empty sequence" /\ catalog = [])
  \/ (exists d k, In d catalog /\ dict_get d k = None
         /\ In k descriptor_keys /\ ex = KeyError k)
  \/ (exists d c, In d catalog /\ dict_get d "ext" = Some c
         /\ c <> "mp4" /\ c <> "webm" /\ ex = KeyError c)
  \/ ex = NoMatchingFormatError.

(** A video-only descriptor in [mp4] that lacks the key [format_id], and
    the audio that pairs with [mp4]. *)
Definition catalog_missing_id : list Descriptor :=
  [to_dict (audio_fmt "140" "m4a");
   [("vcodec", "avc1"); ("acodec", "none"); ("ext", "mp4");
    ("format_note", "480p"); ("protocol", "https")]].

(** A combined stream whose descriptor lacks the key [format_note]. *)
Definition descriptor_without_note : Descriptor :=
  [("format_id", "18"); ("vcodec", "avc1"); ("acodec", "mp4a");
   ("ext", "mp4"); ("protocol", "https")].

(** ** Further methods of class Downloader *)

(** [d[k] = v]: an existing key keeps its place and takes the new value, a
    new key goes to the end. *)
Fixpoint dict_set {V} (d : dict V) (k : string) (v : V) : dict V :=
  match d with
  | [] => [(k, v)]
  | (k', v') :: d' =>
      if String.eqb k' k then (k', v) :: d' else (k', v') :: dict_set d' k v
  end.

(** [d.update(u)] *)
Definition dict_update {V} (d u : dict V) : dict V :=
  fold_left (fun acc kv => dict_set acc (fst kv) (snd kv)) u d.


(** The exceptions of attribute access and of the file system;
    [OSError name path] is any other subclass of [OSError], by name
    ([IsADirectoryError], [PermissionError], ...). *)
Inductive os_exn : Type :=
| AttributeError (msg : string)
| FileNotFoundError (path : string)
| OSError (name : string) (path : string).





Module DownloaderMethods.


(** The property [location]. *)
Definition location (self : Downloader.t) : os_exn + string :=
  match Downloader.file_path self with
  | None =>
      inl (AttributeError "Can't get location of file before it's been downloaded.")
  | Some p => inr p
  end.



(** [update_ydl_config], as its effect on the dict [self.ydl_opts]; an
    argument left at [None] is skipped. *)
Definition update_ydl_config {V} (ydl_opts : dict V)
    (ydl_options progression : option (dict V)) : dict V :=
  let ydl_opts :=
    match ydl_options with
    | Some u => dict_update ydl_opts u
    | None => ydl_opts
    end in
  match progression with
  | Some u => dict_update ydl_opts u
  | None => ydl_opts
  end.

End DownloaderMethods.

(** ** class Video: the choice of post-processors in [write] *)

Module Video.

(** [if self.extension == "auto": self.extension = ""] *)
Definition auto_extension (choice : string) : string :=
  if choice =? "auto" then "" else choice.

(** The list [post_processors] built for the chosen extension. *)
Definition post_processors (extension : string) : result (list Processor) :=
  match getitem EXTENSIONS "audio" with
  | Raise e => Raise e
  | Ok audio =>
      let l1 :=
        if list_in extension audio then [FFmpegExtractAudioPP extension] else [] in
      match getitem EXTENSIONS "video" with
      | Raise e => Raise e
      | Ok video =>
          let l2 :=
            if list_in extension video
            then [FFmpegVideoConvertorPP extension] else [] in
          Ok (l1 ++ l2)%list
      end
  end.

End Video.

(** The extension a retrieval filters by: the argument, or the selector's
    own extension when the argument is empty. *)
Definition effective_extension (self : FormatSelector.t) (extension : string)
  : string :=
  if truthy extension then extension else FormatSelector.extension self.

(** The extensions of the known table, as the parser flattens it. *)
Definition known_extension (e : string) : bool :=
  list_in e (concat (values EXTENSIONS)).

(** A dict keeps one entry per key. *)
Definition unique_keys {V} (d : dict V) : Prop := NoDup (map fst d).

(** Lookup in an optional dict argument; [None] binds nothing. *)
Definition optional_get {V} (o : option (dict V)) (k : string) : option V :=
  match o with
  | Some u => dict_get u k
  | None => None
  end.

Definition optional_unique_keys {V} (o : option (dict V)) : Prop :=
  match o with
  | Some u => unique_keys u
  | None => True
  end.

(** Sample option dicts: the downloader's initial keys, and the progress
    hook the page adds. *)
Definition sample_opts : dict string :=
  [("format", "parser"); ("outtmpl", "./temp/%(title)s.%(ext)s");
   ("verbose", "False"); ("logging", "VideoLogger")].

Definition sample_progression : dict string :=
  [("progress_hooks", "_display_progression")].

(** ** Builtins *)

Lemma list_in_true (x : string) (l : list string) :
  list_in x l = true <-> In x l.
Proof.
  unfold list_in. rewrite existsb_exists. split.
  - intros [y [Hy Heq]]. apply String.eqb_eq in Heq. now subst.
  - intros H. exists x. split; [assumption | apply String.eqb_refl].
Qed.

Lemma next_Ok {A} (p : A -> bool) (l : list A) (x : A) :
  next p l = Ok x -> In x l /\ p x = true.
Proof.
  unfold next. destruct (find p l) eqn:E; [|discriminate].
  intros H. injection H as <-. now apply find_some in E.
Qed.

Lemma max_from_In {A} (key : A -> Z) (l : list A) :
  forall best, max_from key best l = best \/ In (max_from key best l) l.
Proof.
  induction l as [|x l IH]; intros best; simpl.
  - now left.
  - destruct (key best <? key x)%Z.
    + destruct (IH x) as [-> | H]; auto.
    + destruct (IH best) as [-> | H]; auto.
Qed.

Lemma max_Ok_In {A} (key : A -> Z) (l : list A) (x : A) :
  Py.max key l = Ok x -> In x l.
Proof.
  destruct l as [|y l]; simpl; [discriminate|].
  intros H. injection H as <-.
  destruct (max_from_In key l y) as [-> | H]; auto.
Qed.

Lemma max_nonempty {A} (key : A -> Z) (l : list A) :
  l <> [] -> exists x, Py.max key l = Ok x.
Proof.
  destruct l as [|y l]; [congruence|]. intros _. simpl. eauto.
Qed.

(** ** The selector as a function of its state *)

Lemma preserves_ret {A} (a : A) : preserves (FormatSelector.ret a).
Proof. intros self. reflexivity. Qed.

Lemma preserves_lift {A} (r : result A) : preserves (FormatSelector.lift r).
Proof. intros self. reflexivity. Qed.

Lemma preserves_raise {A} (e : exn) : preserves (@FormatSelector.raise A e).
Proof. intros self. reflexivity. Qed.

Lemma preserves_self_extension : preserves FormatSelector.self_extension.
Proof. intros self. reflexivity. Qed.

Lemma preserves_bind {A B} (m : FormatSelector.M A) (k : A -> FormatSelector.M B) :
  preserves m -> (forall a, preserves (k a)) -> preserves (FormatSelector.bind m k).
Proof.
  intros Hm Hk self. unfold FormatSelector.bind.
  specialize (Hm self). destruct (m self) as [[a | e] self']; simpl in Hm; subst.
  - apply Hk.
  - reflexivity.
Qed.

Lemma preserves_if {A} (b : bool) (m1 m2 : FormatSelector.M A) :
  preserves m1 -> preserves m2 -> preserves (if b then m1 else m2).
Proof. now destruct b. Qed.

Create HintDb selector.

#[local] Hint Resolve preserves_ret preserves_lift preserves_raise
  preserves_self_extension preserves_bind preserves_if : selector.

Lemma preserves_retrieve_video_format formats quality extension :
  preserves (FormatSelector.retrieve_video_format formats quality extension).
Proof. unfold FormatSelector.retrieve_video_format. auto with selector. Qed.

Lemma preserves_retrieve_audio_format formats extension :
  preserves (FormatSelector.retrieve_audio_format formats extension).
Proof. unfold FormatSelector.retrieve_audio_format. auto with selector. Qed.

#[local] Hint Resolve preserves_retrieve_video_format
  preserves_retrieve_audio_format : selector.

Lemma preserves_parser_body ctx : preserves (FormatSelector.parser_body ctx).
Proof.
  unfold FormatSelector.parser_body.
  apply preserves_bind; [auto with selector|]. intros e.
  apply preserves_if; [auto with selector|].
  repeat (apply preserves_bind; [auto 6 with selector|]; intros ?).
  auto with selector.
Qed.

Lemma preserves_parser ctx : preserves (FormatSelector.parser ctx).
Proof.
  intros self. unfold FormatSelector.parser.
  pose proof (preserves_parser_body ctx self) as H.
  destruct (FormatSelector.parser_body ctx self) as [[r | []] self']; assumption.
Qed.

#[local] Arguments String.eqb : simpl never.
#[local] Arguments dict_get : simpl never.
#[local] Arguments list_in : simpl never.

Lemma MERGE_values (k x : string) :
  dict_get FormatSelector.MERGE k = Some x -> truthy x = true.
Proof.
  unfold FormatSelector.MERGE, dict_get.
  destruct ("mp4" =? k); [intros [= <-]; reflexivity|].
  destruct ("webm" =? k); [intros [= <-]; reflexivity|discriminate].
Qed.

Lemma MERGE_keys (k : string) :
  dict_get FormatSelector.MERGE k = None <-> k <> "mp4" /\ k <> "webm".
Proof.
  unfold FormatSelector.MERGE, dict_get.
  destruct (String.eqb_spec "mp4" k) as [<- | H1].
  - split; [discriminate | intros [H _]; congruence].
  - destruct (String.eqb_spec "webm" k) as [<- | H2].
    + split; [discriminate | intros [_ H]; congruence].
    + split; [split; congruence | reflexivity].
Qed.

Lemma EXTENSIONS_audio :
  getitem EXTENSIONS "audio" = Ok ["mp3"; "m4a"; "webm"; "wav"].
Proof. reflexivity. Qed.

Lemma EXTENSIONS_flat :
  concat (values EXTENSIONS) = ["mp4"; "webm"; "mp3"; "m4a"; "webm"; "wav"].
Proof. reflexivity. Qed.

(** The highest label is undefined only for an empty list of formats. *)
Lemma get_highest_available_quality_Raise (formats : list Format) (x : exn) :
  FormatSelector.get_highest_available_quality formats = Raise x ->
  x = ValueError "max() arg is an empty sequence" /\ formats = [].
Proof.
  unfold FormatSelector.get_highest_available_quality.
  destruct formats as [|f formats]; simpl; [|discriminate].
  intros [= <-]. now split.
Qed.

(** Unfolding the monadic plumbing of the selector. *)
Ltac run_selector :=
  unfold FormatSelector.parser, FormatSelector.parser_body,
    FormatSelector.retrieve_video_format, FormatSelector.retrieve_audio_format,
    FormatSelector.bind, FormatSelector.ret, FormatSelector.lift,
    FormatSelector.raise, FormatSelector.self_extension in *.

(** What a no-preference selection computes, step by step. *)
Lemma select_unfold (catalog : list Format) (e : string) :
  select catalog e =
  match FormatSelector.get_highest_available_quality (rev catalog) with
  | Raise x => Raise x
  | Ok q =>
      match find (FormatSelector.video_match "" (FormatSelector.clamp_quality q))
                 (rev catalog) with
      | None => Raise NoMatchingFormatError
      | Some video =>
          match dict_get FormatSelector.MERGE (ext video) with
          | None => Raise (KeyError (ext video))
          | Some paired =>
              match find (FormatSelector.audio_match paired) (rev catalog) with
              | None => Raise NoMatchingFormatError
              | Some audio =>
                  Ok {| sel_format_id := format_id video ++ "+" ++ format_id audio;
                        sel_ext := ext video;
                        requested_formats := [video; audio];
                        sel_protocol := protocol video ++ "+" ++ protocol audio |}
              end
          end
      end
  end.
Proof.
  unfold select, FormatSelector.__init__. run_selector.
  rewrite EXTENSIONS_audio. cbn.
  change (list_in "" ["mp3"; "m4a"; "webm"; "wav"]) with false. cbn.
  destruct (FormatSelector.get_highest_available_quality (rev catalog))
    as [q | x] eqn:Hq; cbn.
  2: { apply get_highest_available_quality_Raise in Hq as [-> _]. reflexivity. }
  unfold next.
  destruct (find (FormatSelector.video_match "" (FormatSelector.clamp_quality q))
              (rev catalog)) as [video |]; cbn; [|reflexivity].
  unfold getitem.
  destruct (dict_get FormatSelector.MERGE (ext video)) as [paired |] eqn:Hm;
    cbn; [|reflexivity].
  rewrite (MERGE_values _ _ Hm). cbn.
  now destruct (find (FormatSelector.audio_match paired) (rev catalog)).
Qed.

Lemma audio_match_ext (x : string) (a : Format) :
  truthy x = true -> FormatSelector.audio_match x a = true ->
  audio_only a = true /\ ext a = x.
Proof.
  unfold FormatSelector.audio_match, audio_only. intros ->.
  rewrite !andb_true_iff. intros [[Hv Ha] He].
  apply String.eqb_eq in He. rewrite Hv, Ha. now split.
Qed.

Lemma video_match_spec (x q : string) (v : Format) :
  FormatSelector.video_match x q v = true ->
  video_only v = true /\ format_note v = q /\ (truthy x = true -> ext v = x).
Proof.
  unfold FormatSelector.video_match, video_only.
  rewrite !andb_true_iff. intros [[[Hv Ha] He] Hq].
  apply String.eqb_eq in Hq. rewrite Hv, Ha. repeat split; [assumption|].
  intros Hx. rewrite Hx in He. now apply String.eqb_eq in He.
Qed.

(** C6: a selection made without an audio extension pairs the chosen video
    format with an audio format whose container is the one the merge table
    gives for the video's container: [m4a] for [mp4], [webm] for [webm]. *)
Theorem parser_pairs_audio_by_merge_table
    (self : FormatSelector.t) (ctx : Ctx) (r : Selection) :
  is_audio_request (FormatSelector.extension self) = false ->
  fst (FormatSelector.parser ctx self) = Ok r ->
  exists v a,
    videoFormat r = Some v /\ audioFormat r = Some a /\
    dict_get FormatSelector.MERGE (ext v) = Some (ext a) /\
    (ext v = "mp4" -> ext a = "m4a") /\
    (ext v = "webm" -> ext a = "webm").
Proof.
  destruct self as [e]. intros Ha Hr.
  change (list_in e ["mp3"; "m4a"; "webm"; "wav"] = false) in Ha.
  run_selector. rewrite EXTENSIONS_audio, EXTENSIONS_flat in Hr. cbn in Hr.
  destruct (truthy e && negb (list_in e ["mp4"; "webm"; "mp3"; "m4a"; "webm"; "wav"]));
    [discriminate|].
  cbn in Hr. rewrite Ha in Hr. cbn in Hr.
  destruct (FormatSelector.get_highest_available_quality
              (rev (ctx_get_formats ctx))) as [q | x]; cbn in Hr;
    [|destruct x; discriminate].
  match type of Hr with context [next ?p ?l] =>
    destruct (next p l) as [v | x] eqn:Hv; cbn in Hr; [|destruct x; discriminate]
  end.
  unfold getitem in Hr.
  destruct (dict_get FormatSelector.MERGE (ext v)) as [paired |] eqn:Hm;
    cbn in Hr; [|discriminate].
  pose proof (MERGE_values _ _ Hm) as Hp. rewrite Hp in Hr. cbn in Hr.
  match type of Hr with context [next ?p ?l] =>
    destruct (next p l) as [a | x] eqn:Hau; cbn in Hr; [|destruct x; discriminate]
  end.
  injection Hr as <-. exists v, a.
  apply next_Ok in Hau as [_ Hau]. apply (audio_match_ext _ _ Hp) in Hau as [_ Hext].
  subst paired. repeat split; try reflexivity; try assumption.
  - intros E. rewrite E in Hm. now injection Hm as <-.
  - intros E. rewrite E in Hm. now injection Hm as <-.
Qed.

Lemma parser_pairs_audio_by_merge_table_witness :
  is_audio_request (FormatSelector.extension (FormatSelector.__init__ "mp4")) = false
  /\ fst (FormatSelector.parser (mkCtx (Some catalog_hd))
            (FormatSelector.__init__ "mp4")) = Ok selection_hd
  /\ exists v a,
       videoFormat selection_hd = Some v /\ audioFormat selection_hd = Some a /\
       dict_get FormatSelector.MERGE (ext v) = Some (ext a) /\
       (ext v = "mp4" -> ext a = "m4a") /\
       (ext v = "webm" -> ext a = "webm").
Proof.
  split; [reflexivity|]. split; [reflexivity|].
  apply (parser_pairs_audio_by_merge_table
           (FormatSelector.__init__ "mp4") (mkCtx (Some catalog_hd)) selection_hd);
    reflexivity.
Defined.

(** The selector itself honours its [extension] attribute. *)

Lemma parser_rejects_unknown_extension (e : string) (ctx : Ctx) :
  truthy e = true ->
  list_in e (concat (values EXTENSIONS)) = false ->
  fst (FormatSelector.parser ctx (FormatSelector.mk e))
  = Raise (UnavailableExtensionError e).
Proof.
  intros Ht Hl. run_selector. cbn [FormatSelector.extension].
  rewrite Ht, Hl. reflexivity.
Qed.

Lemma parser_audio_request (e : string) (ctx : Ctx) (r : Selection) :
  is_audio_request e = true ->
  fst (FormatSelector.parser ctx (FormatSelector.mk e)) = Ok r ->
  exists v a,
    videoFormat r = Some v /\ audioFormat r = Some a /\
    format_note v = "144p" /\ ext v = e /\ ext a = e.
Proof.
  intros Ha Hr.
  change (list_in e ["mp3"; "m4a"; "webm"; "wav"] = true) in Ha.
  assert (Ht : truthy e = true).
  { apply list_in_true in Ha. simpl in Ha.
    destruct Ha as [<- | [<- | [<- | [<- | []]]]]; reflexivity. }
  run_selector. rewrite EXTENSIONS_audio, EXTENSIONS_flat in Hr. cbn in Hr.
  destruct (truthy e && negb (list_in e ["mp4"; "webm"; "mp3"; "m4a"; "webm"; "wav"]));
    [discriminate|].
  cbn in Hr. rewrite Ha in Hr. cbn in Hr.
  match type of Hr with context [next ?p ?l] =>
    destruct (next p l) as [v | x] eqn:Hv; cbn in Hr; [|destruct x; discriminate]
  end.
  rewrite Ht in Hr. cbn in Hr.
  match type of Hr with context [next ?p ?l] =>
    destruct (next p l) as [a | x] eqn:Hau; cbn in Hr; [|destruct x; discriminate]
  end.
  injection Hr as <-. exists v, a.
  apply next_Ok in Hv as [_ Hv]. apply video_match_spec in Hv as (_ & Hq & He).
  apply next_Ok in Hau as [_ Hau]. apply (audio_match_ext _ _ Ht) in Hau as [_ Hext].
  repeat split; auto.
Qed.

(** What a successful no-preference selection returns: the first video-only
    format, best first, whose label is the clamped first-digit maximum, and
    the first audio-only format in the container the merge table pairs with
    the video's. *)
Lemma select_Ok_inv (catalog : list Format) (e : string) (r : Selection) :
  select catalog e = Ok r ->
  exists q v a,
    FormatSelector.get_highest_available_quality (rev catalog) = Ok q
    /\ find (FormatSelector.video_match "" (FormatSelector.clamp_quality q))
         (rev catalog) = Some v
    /\ dict_get FormatSelector.MERGE (ext v) = Some (ext a)
    /\ find (FormatSelector.audio_match (ext a)) (rev catalog) = Some a
    /\ r = {| sel_format_id := format_id v ++ "+" ++ format_id a;
              sel_ext := ext v;
              requested_formats := [v; a];
              sel_protocol := protocol v ++ "+" ++ protocol a |}.
Proof.
  rewrite select_unfold.
  destruct (FormatSelector.get_highest_available_quality (rev catalog))
    as [q | x]; [|discriminate].
  destruct (find _ (rev catalog)) as [v |] eqn:Hv; [|discriminate].
  destruct (dict_get FormatSelector.MERGE (ext v)) as [paired |] eqn:Hm;
    [|discriminate].
  destruct (find (FormatSelector.audio_match paired) (rev catalog))
    as [a |] eqn:Ha; [|discriminate].
  intros [= <-]. exists q, v, a.
  pose proof Ha as Hext. apply find_some in Hext as [_ Hext].
  apply (audio_match_ext _ _ (MERGE_values _ _ Hm)) in Hext as [_ <-].
  repeat split; assumption.
Qed.

(** ** Claims about the selection *)

(** C1 (the code departs from the claim): labels are ranked by their first
    digit only, so ["720p"] (7) outranks ["1080p"] (1).  On a catalog that
    offers a video-only 1080p format, a video-only 720p format and the audio
    format that pairs with both, a no-preference selection returns the 720p
    format, not the highest label present. *)
Theorem select_prefers_720p_over_1080p :
  FormatSelector._get_positive_int "1080p" = 1%Z
  /\ FormatSelector._get_positive_int "720p" = 7%Z
  /\ In (video_fmt "137" "mp4" "1080p") catalog_hd
  /\ video_only (video_fmt "137" "mp4" "1080p") = true
  /\ FormatSelector.get_highest_available_quality (rev catalog_hd) = Ok "720p"
  /\ select catalog_hd "" = Ok selection_hd
  /\ videoFormat selection_hd = Some (video_fmt "136" "mp4" "720p").
Proof.
  repeat split; try reflexivity. simpl. auto.
Qed.

(** C2 (the code departs from the claim): a selection requested for the
    audio extension ["webm"] on a catalog that offers a video-only 144p
    format and an audio-only webm format returns the 360p video and the m4a
    audio, because the selector was constructed without the extension; the
    parser run on a selector that does carry ["webm"] returns the 144p video
    and the webm audio. *)
Theorem select_ignores_audio_request :
  is_audio_request "webm" = true
  /\ In (video_fmt "278" "webm" "144p") catalog_mixed
  /\ In (audio_fmt "249" "webm") catalog_mixed
  /\ (exists r, select catalog_mixed "webm" = Ok r
        /\ videoFormat r = Some (video_fmt "134" "mp4" "360p")
        /\ audioFormat r = Some (audio_fmt "140" "m4a"))
  /\ (exists r, fst (FormatSelector.parser (mkCtx (Some catalog_mixed))
                       (FormatSelector.mk "webm")) = Ok r
        /\ videoFormat r = Some (video_fmt "278" "webm" "144p")
        /\ audioFormat r = Some (audio_fmt "249" "webm")).
Proof.
  split; [reflexivity|]. split; [simpl; auto|]. split; [simpl; auto|].
  split; eexists; (split; [vm_compute; reflexivity|]); split; reflexivity.
Qed.

(** C3 (the code departs from the claim): a selection requested for the
    unknown extension ["avi"] succeeds, because the selector was constructed
    without the extension; the parser run on a selector that does carry
    ["avi"] raises the unavailable-extension error. *)
Theorem select_accepts_unknown_extension :
  truthy "avi" = true
  /\ list_in "avi" ["mp4"; "webm"; "mp3"; "m4a"; "wav"] = false
  /\ select catalog_hd "avi" = Ok selection_hd
  /\ fst (FormatSelector.parser (mkCtx (Some catalog_hd)) (FormatSelector.mk "avi"))
     = Raise (UnavailableExtensionError "avi").
Proof. repeat split; reflexivity. Qed.

Lemma target_videos_In (catalog : list Format) (q : string) (v : Format) :
  FormatSelector.get_highest_available_quality (rev catalog) = Ok q ->
  find (FormatSelector.video_match "" (FormatSelector.clamp_quality q)) (rev catalog)
  = Some v ->
  In v (target_videos catalog).
Proof.
  intros Hq Hv. unfold target_videos, target_quality. rewrite Hq.
  apply find_some in Hv as [Hin Hm]. apply in_rev in Hin.
  apply video_match_spec in Hm as (Hvo & Hn & _).
  apply filter_In. split; [assumption|].
  rewrite Hvo, Hn. apply String.eqb_refl.
Qed.

(** C7: two consecutive runs of the selector on the same catalog return the
    same outcome, and the selector object is the same before and after each
    run. *)
Theorem parser_idempotent (ctx : Ctx) (self : FormatSelector.t) :
  let (r1, self1) := FormatSelector.parser ctx self in
  let (r2, self2) := FormatSelector.parser ctx self1 in
  r1 = r2 /\ self1 = self /\ self2 = self.
Proof.
  pose proof (preserves_parser ctx self) as H.
  destruct (FormatSelector.parser ctx self) as [r1 self1] eqn:E1.
  simpl in H. subst self1. rewrite E1. auto.
Qed.

(** C9: the constructor stores the empty string whatever extension it is
    given, also in the selector a downloader builds, so a selection through
    a freshly constructed selector is the no-preference selection. *)
Theorem init_discards_extension (e : string) :
  FormatSelector.extension (FormatSelector.__init__ e) = ""
  /\ (forall u storage verbose,
        FormatSelector.extension
          (Downloader.formatselector (Downloader.__init__ u e storage verbose)) = ""
        /\ Downloader.extension (Downloader.__init__ u e storage verbose) = e)
  /\ (forall catalog, select catalog e = select catalog "")
  /\ (forall u storage verbose catalog,
        opt_format (Downloader.ydl_opts (Downloader.__init__ u e storage verbose))
          (mkCtx (Some catalog)) = select catalog "").
Proof. repeat split. Qed.

(** C10: in a no-preference selection whose first matching video-only
    format has a container other than [mp4] and [webm], the lookup of that
    container in the merge table raises [KeyError], which the selection
    propagates; it is none of the error kinds of the specification. *)
Theorem select_unpaired_container_KeyError
    (catalog : list Format) (e q : string) (v : Format) :
  FormatSelector.get_highest_available_quality (rev catalog) = Ok q ->
  find (FormatSelector.video_match "" (FormatSelector.clamp_quality q)) (rev catalog)
  = Some v ->
  ext v <> "mp4" -> ext v <> "webm" ->
  getitem FormatSelector.MERGE (ext v) = Raise (KeyError (ext v))
  /\ select catalog e = Raise (KeyError (ext v))
  /\ ~ specified_error_kind (KeyError (ext v)).
Proof.
  intros Hq Hv H1 H2.
  assert (Hm : dict_get FormatSelector.MERGE (ext v) = None)
    by (apply MERGE_keys; now split).
  split; [unfold getitem; now rewrite Hm|]. split.
  - rewrite select_unfold, Hq, Hv, Hm. reflexivity.
  - intros [[x H] | [H | [H | H]]]; discriminate.
Qed.

Lemma select_unpaired_container_KeyError_witness :
  FormatSelector.get_highest_available_quality (rev catalog_flv) = Ok "240p"
  /\ find (FormatSelector.video_match "" (FormatSelector.clamp_quality "240p"))
       (rev catalog_flv) = Some (video_fmt "5" "flv" "240p")
  /\ getitem FormatSelector.MERGE "flv" = Raise (KeyError "flv")
  /\ select catalog_flv "" = Raise (KeyError "flv")
  /\ ~ specified_error_kind (KeyError "flv").
Proof.
  split; [reflexivity|]. split; [reflexivity|].
  apply (select_unpaired_container_KeyError catalog_flv "" "240p"
           (video_fmt "5" "flv" "240p"));
    [reflexivity | reflexivity | discriminate | discriminate].
Defined.

(** ** Claims about the download flow *)

(** What the URL check computes for a freshly constructed downloader: the
    URL is refused exactly when none of the listed conditions holds. *)
Lemma _check_url_true_iff (u e storage : string) (verbose : bool) (url : string) :
  Downloader._check_url (Downloader.__init__ u e storage verbose) url = true
  <-> startswith url "https" = false
      /\ str_in "porn" url = true
      /\ str_in "xxx" url = true
      /\ str_in "watch" url = false
      /\ str_in "you" url = false.
Proof.
  unfold Downloader._check_url, any.
  cbn [Downloader.banned Downloader.__init__ map app existsb].
  destruct (startswith url "https"), (str_in "porn" url), (str_in "xxx" url),
    (str_in "watch" url), (str_in "you" url); simpl;
    intuition congruence.
Qed.

(** C4 (the code departs from the claim): the check passes the well-formed
    URL, but it also passes a URL that does not start with [https] and a URL
    that contains [xxx]; with an engine that reports success the download of
    either completes without the invalid-URL error. *)
Theorem check_url_passes_http_and_banned :
  Downloader._check_url
    (sample_downloader "https://www.youtube.com/watch?v=abc" "mp4")
    "https://www.youtube.com/watch?v=abc" = false
  /\ startswith "http://example.com/watch?v=abc" "https" = false
  /\ Downloader._check_url
       (sample_downloader "http://example.com/watch?v=abc" "mp4")
       "http://example.com/watch?v=abc" = false
  /\ fst (Downloader.download_video (engine_const sample_metadata 0)
            (sample_downloader "http://example.com/watch?v=abc" "mp4")
            "http://example.com/watch?v=abc" []) = Ok tt
  /\ str_in "xxx" "https://www.youtube.com/watch?v=xxx" = true
  /\ Downloader._check_url
       (sample_downloader "https://www.youtube.com/watch?v=xxx" "mp4")
       "https://www.youtube.com/watch?v=xxx" = false
  /\ fst (Downloader.download_video (engine_const sample_metadata 0)
            (sample_downloader "https://www.youtube.com/watch?v=xxx" "mp4")
            "https://www.youtube.com/watch?v=xxx" []) = Ok tt.
Proof. repeat split; reflexivity. Qed.

(** C8 (amended): once the URL check has passed and the engine has returned
    its metadata and a status, the download fails with the download-failed
    error exactly when the status is 1; for every other status, zero or not,
    it completes and records the file path
    [storage/title.extension]. *)
Theorem download_video_fails_iff_status_one
    (engine : Options -> YoutubeDL) (self : Downloader.t)
    (url : string) (processors : list Processor) (m : Metadata) (code : Z) :
  Downloader._check_url self url = false ->
  extract_info (engine (Downloader.ydl_opts self)) url = Ok m ->
  download (engine (Downloader.ydl_opts self)) processors [url] = Ok code ->
  (fst (Downloader.download_video engine self url processors)
   = Raise DownloadFailedError <-> code = 1%Z)
  /\ (code <> 1%Z ->
      Downloader.download_video engine self url processors
      = (Ok tt,
         Downloader.set_file_path (Downloader.set_metadata self m)
           (Downloader.storage self ++ "/" ++ title m ++ "."
            ++ Downloader.extension self))).
Proof.
  intros Hu Hi Hd. unfold Downloader.download_video.
  rewrite Hu, Hi. cbn [Downloader.ydl_opts Downloader.set_metadata].
  rewrite Hd. destruct (Z.eqb_spec code 1) as [-> | Hne].
  - split; [now split | congruence].
  - split; [split; [discriminate | congruence] | reflexivity].
Qed.

Lemma download_video_fails_iff_status_one_witness :
  Downloader._check_url sample_self sample_url = false
  /\ extract_info (engine_const sample_metadata 1 (Downloader.ydl_opts sample_self))
       sample_url = Ok sample_metadata
  /\ download (engine_const sample_metadata 1 (Downloader.ydl_opts sample_self))
       [] [sample_url] = Ok 1%Z
  /\ (fst (Downloader.download_video (engine_const sample_metadata 1)
             sample_self sample_url [])
      = Raise DownloadFailedError <-> 1%Z = 1%Z)
  /\ (1%Z <> 1%Z ->
      Downloader.download_video (engine_const sample_metadata 1)
        sample_self sample_url []
      = (Ok tt,
         Downloader.set_file_path (Downloader.set_metadata sample_self sample_metadata)
           (Downloader.storage sample_self ++ "/" ++ title sample_metadata ++ "."
            ++ Downloader.extension sample_self))).
Proof.
  split; [reflexivity|]. split; [reflexivity|]. split; [reflexivity|].
  apply (download_video_fails_iff_status_one (engine_const sample_metadata 1)
           sample_self sample_url [] sample_metadata 1);
    reflexivity.
Defined.

(** C8 as stated fails: with the non-zero status 2 the download does not
    fail; it completes and records the file path. *)
Lemma download_video_status_two_completes :
  download (engine_const sample_metadata 2 (Downloader.ydl_opts sample_self))
    [] [sample_url] = Ok 2%Z
  /\ 2%Z <> 0%Z
  /\ fst (Downloader.download_video (engine_const sample_metadata 2)
            sample_self sample_url []) = Ok tt
  /\ fst (Downloader.download_video (engine_const sample_metadata 2)
            sample_self sample_url []) <> Raise DownloadFailedError
  /\ Downloader.file_path
       (snd (Downloader.download_video (engine_const sample_metadata 2)
               sample_self sample_url []))
     = Some "./temp/clip.mp4".
Proof.
  repeat split; try reflexivity; discriminate.
Qed.

(** ** Further properties of the code *)

(** *** Ranking of quality labels *)

Lemma is_digit_range (c : ascii) :
  is_digit c = true -> (48 <= nat_of_ascii c <= 57)%nat.
Proof.
  unfold is_digit. intros H. apply andb_true_iff in H as [H1 H2].
  apply Nat.leb_le in H1. apply Nat.leb_le in H2. lia.
Qed.

(** X1: the rank of a label is a single digit, between 0 and 9, and it
    depends on the first character of the label only. *)
Theorem _get_positive_int_first_character (value : string) :
  (0 <= FormatSelector._get_positive_int value <= 9)%Z
  /\ FormatSelector._get_positive_int value
     = FormatSelector._get_positive_int (substring 0 1 value).
Proof.
  destruct value as [|c rest].
  - split; [cbv; split; discriminate | reflexivity].
  - unfold FormatSelector._get_positive_int.
    cbn [substring match_digit].
    destruct (is_digit c) eqn:Hd; [|split; [lia | reflexivity]].
    apply is_digit_range in Hd. unfold int. cbn [int_from].
    split; [lia | reflexivity].
Qed.

(** [max] returns the first element of maximal key. *)
Lemma max_from_spec {A} (key : A -> Z) (l : list A) :
  forall best, exists l1 l2,
    best :: l = (l1 ++ max_from key best l :: l2)%list
    /\ (forall y, In y l1 -> (key y < key (max_from key best l))%Z)
    /\ (forall y, In y l2 -> (key y <= key (max_from key best l))%Z).
Proof.
  induction l as [|x l IH]; intros best; cbn [max_from].
  - exists [], []. repeat split; intros y [].
  - destruct (Z.ltb_spec (key best) (key x)) as [Hlt | Hge].
    + destruct (IH x) as (l1 & l2 & Heq & H1 & H2).
      exists (best :: l1), l2. split; [cbn; now rewrite Heq|]. split; [|exact H2].
      intros y [<- | Hy]; [|now apply H1].
      destruct l1 as [|z l1]; cbn in Heq; injection Heq as Hx _.
      * now rewrite <- Hx.
      * subst z. specialize (H1 x (or_introl eq_refl)). lia.
    + destruct (IH best) as (l1 & l2 & Heq & H1 & H2).
      destruct l1 as [|z l1]; cbn in Heq; injection Heq as Hb Hl.
      * exists [], (x :: l2). rewrite <- Hb. split; [cbn; now rewrite Hl|].
        split; [intros y []|]. intros y [<- | Hy]; [assumption|].
        rewrite Hb. now apply H2.
      * subst z. exists (best :: x :: l1), l2.
        split; [cbn; do 2 f_equal; exact Hl|]. split; [|exact H2].
        pose proof (H1 best (or_introl eq_refl)) as Hbest.
        intros y [<- | [<- | Hy]]; [assumption | lia | apply H1; now right].
Qed.

Lemma max_spec {A} (key : A -> Z) (l : list A) (x : A) :
  Py.max key l = Ok x ->
  exists l1 l2,
    l = (l1 ++ x :: l2)%list
    /\ (forall y, In y l1 -> (key y < key x)%Z)
    /\ (forall y, In y l2 -> (key y <= key x)%Z).
Proof.
  destruct l as [|best l]; cbn [Py.max]; [discriminate|].
  intros [= <-]. apply max_from_spec.
Qed.

(** *** util/data.py *)

Lemma map_itemgetter_Ok {V} (key : string) (collection : list (dict V)) :
  forall vs, Data.map_itemgetter key collection = Ok vs ->
    Forall2 (fun d v => dict_get d key = Some v) collection vs.
Proof.
  induction collection as [|d c IH]; cbn [Data.map_itemgetter]; intros vs.
  - intros [= <-]. constructor.
  - unfold getitem. destruct (dict_get d key) as [v |] eqn:Hd; [|discriminate].
    destruct (Data.map_itemgetter key c) as [vs' | e]; [|discriminate].
    intros [= <-]. constructor; auto.
Qed.

Lemma map_itemgetter_Raise {V} (key : string) (collection : list (dict V)) :
  forall e, Data.map_itemgetter key collection = Raise e ->
    e = KeyError key /\ exists d, In d collection /\ dict_get d key = None.
Proof.
  induction collection as [|d c IH]; cbn [Data.map_itemgetter]; intros e.
  - discriminate.
  - unfold getitem. destruct (dict_get d key) as [v |] eqn:Hd.
    + destruct (Data.map_itemgetter key c) as [vs' | e']; [discriminate|].
      intros [= <-]. destruct (IH e' eq_refl) as [-> (d' & Hin & Hk)].
      split; [reflexivity|]. exists d'. split; [now right | assumption].
    + intros [= <-]. split; [reflexivity|]. exists d. split; [now left | assumption].
Qed.

(** X3: [find_max_dict] raises [KeyError(key)] when some dict of the
    collection lacks the key, [ValueError] when the collection is empty, and
    otherwise returns the value of one of the dicts, ranked at least as high
    as the value of every dict. *)
Theorem find_max_dict_outcome {V} (collection : list (dict V)) (key : string)
    (func : V -> Z) :
  match Data.find_max_dict collection key func with
  | Raise e =>
      (collection = [] /\ e = ValueError "max() arg is an empty sequence")
      \/ (e = KeyError key
          /\ exists d, In d collection /\ dict_get d key = None)
  | Ok v =>
      (exists d, In d collection /\ dict_get d key = Some v)
      /\ (forall d, In d collection ->
            exists w, dict_get d key = Some w /\ (func w <= func v)%Z)
  end.
Proof.
  unfold Data.find_max_dict.
  destruct (Data.map_itemgetter key collection) as [vs | e] eqn:Hm.
  - apply map_itemgetter_Ok in Hm.
    destruct (Py.max func vs) as [v | e] eqn:Hx.
    + apply max_spec in Hx as (l1 & l2 & -> & H1 & H2).
      assert (Hle : forall w, In w (l1 ++ v :: l2)%list -> (func w <= func v)%Z).
      { intros w Hw. apply in_app_or in Hw as [Hw | [<- | Hw]];
          [specialize (H1 w Hw) | | specialize (H2 w Hw)]; lia. }
      split.
      * assert (Hv : In v (l1 ++ v :: l2)%list) by (apply in_or_app; right; now left).
        clear Hle H1 H2. induction Hm as [|d w c ws Hd _ IH]; [destruct Hv|].
        destruct Hv as [<- | Hv]; [exists d; split; [now left | assumption]|].
        destruct (IH Hv) as (d' & Hin & Hk). exists d'. split; [now right | assumption].
      * intros d Hd. clear H1 H2.
        induction Hm as [|d' w c ws Hd' _ IH]; [destruct Hd|].
        destruct Hd as [<- | Hd].
        -- exists w. split; [assumption | apply Hle; now left].
        -- apply IH; [|assumption]. intros w' Hw'. apply Hle. now right.
    + left. destruct vs as [|v vs]; [|discriminate]. injection Hx as <-.
      inversion Hm. now split.
  - right. now apply map_itemgetter_Raise.
Qed.

(** X4: [flatten] keeps exactly the items of the sublists, distributes over
    concatenation, and agrees with the flattening the parser applies to the
    extension table. *)
Theorem flatten_items {A} (l l' : list (list A)) :
  (forall x, In x (Data.flatten l) <-> exists sub, In sub l /\ In x sub)
  /\ Data.flatten (l ++ l')%list = (Data.flatten l ++ Data.flatten l')%list
  /\ Data.flatten l = concat l
  /\ length (Data.flatten l) = list_sum (map (@length A) l).
Proof.
  assert (Hc : forall m : list (list A), Data.flatten m = concat m).
  { induction m as [|s m IH]; cbn; [reflexivity | now rewrite IH]. }
  repeat split.
  - rewrite Hc, in_concat. intros (sub & H1 & H2). eauto.
  - rewrite Hc, in_concat. intros (sub & H1 & H2). eauto.
  - rewrite !Hc. apply concat_app.
  - apply Hc.
  - rewrite Hc. induction l as [|s l IH]; cbn; [reflexivity|].
    now rewrite length_app, IH.
Qed.

(** *** Retrieval of the video and audio formats *)

Lemma find_first {A} (p : A -> bool) (l : list A) (x : A) :
  find p l = Some x ->
  exists l1 l2,
    l = (l1 ++ x :: l2)%list /\ p x = true /\ (forall y, In y l1 -> p y = false).
Proof.
  induction l as [|z l IH]; cbn [find]; [discriminate|].
  destruct (p z) eqn:Hz.
  - intros [= <-]. exists [], l. repeat split; [assumption | intros y []].
  - intros H. destruct (IH H) as (l1 & l2 & -> & Hx & Hl1).
    exists (z :: l1), l2. repeat split; [assumption|].
    intros y [<- | Hy]; auto.
Qed.

Lemma find_None {A} (p : A -> bool) (l : list A) :
  find p l = None <-> (forall y, In y l -> p y = false).
Proof.
  split; [apply find_none|].
  induction l as [|z l IH]; cbn [find]; [reflexivity|]. intros H.
  rewrite (H z (or_introl eq_refl)). apply IH. intros y Hy. apply H. now right.
Qed.

Lemma retrieve_video_format_run formats quality extension self :
  FormatSelector.retrieve_video_format formats quality extension self
  = (next (FormatSelector.video_match (effective_extension self extension) quality)
       formats, self).
Proof.
  unfold effective_extension. run_selector. now destruct (truthy extension).
Qed.

Lemma retrieve_audio_format_run formats extension self :
  FormatSelector.retrieve_audio_format formats extension self
  = (next (FormatSelector.audio_match (effective_extension self extension)) formats,
     self).
Proof.
  unfold effective_extension. run_selector. now destruct (truthy extension).
Qed.

(** The parser as a function of the selector's extension. *)
Lemma parser_unfold (ctx : Ctx) (self : FormatSelector.t) :
  fst (FormatSelector.parser ctx self) =
  let e := FormatSelector.extension self in
  let formats := rev (ctx_get_formats ctx) in
  if truthy e && negb (known_extension e) then Raise (UnavailableExtensionError e)
  else
    match (if is_audio_request e then Ok "144p"
           else match FormatSelector.get_highest_available_quality formats with
                | Ok h => Ok (FormatSelector.clamp_quality h)
                | Raise x => Raise x
                end) with
    | Raise x => Raise x
    | Ok q =>
        match find (FormatSelector.video_match e q) formats with
        | None => Raise NoMatchingFormatError
        | Some v =>
            match (if is_audio_request e then Ok e
                   else getitem FormatSelector.MERGE (ext v)) with
            | Raise x => Raise x
            | Ok x =>
                match find (FormatSelector.audio_match (if truthy x then x else e))
                           formats with
                | None => Raise NoMatchingFormatError
                | Some a =>
                    Ok {| sel_format_id := format_id v ++ "+" ++ format_id a;
                          sel_ext := ext v;
                          requested_formats := [v; a];
                          sel_protocol := protocol v ++ "+" ++ protocol a |}
                end
            end
        end
    end.
Proof.
  destruct self as [e]. cbn [FormatSelector.extension]. cbv zeta.
  change (is_audio_request e) with (list_in e ["mp3"; "m4a"; "webm"; "wav"]).
  unfold known_extension. rewrite EXTENSIONS_flat.
  run_selector. rewrite EXTENSIONS_audio. cbn.
  destruct (truthy e && negb (list_in e ["mp4"; "webm"; "mp3"; "m4a"; "webm"; "wav"]));
    [reflexivity|].
  cbn. destruct (list_in e ["mp3"; "m4a"; "webm"; "wav"]); cbn.
  - unfold next.
    destruct (find (FormatSelector.video_match e "144p") (rev (ctx_get_formats ctx)))
      as [v |]; cbn; [|reflexivity].
    destruct (truthy e); cbn;
      now destruct (find (FormatSelector.audio_match e) (rev (ctx_get_formats ctx))).
  - destruct (FormatSelector.get_highest_available_quality (rev (ctx_get_formats ctx)))
      as [h | x] eqn:Hh; cbn.
    2: { apply get_highest_available_quality_Raise in Hh as [-> _]. reflexivity. }
    unfold next.
    destruct (find (FormatSelector.video_match e (FormatSelector.clamp_quality h))
                (rev (ctx_get_formats ctx))) as [v |]; cbn; [|reflexivity].
    unfold getitem.
    destruct (dict_get FormatSelector.MERGE (ext v)) as [x |] eqn:Hm; cbn;
      [|reflexivity].
    rewrite (MERGE_values _ _ Hm). cbn.
    now destruct (find (FormatSelector.audio_match x) (rev (ctx_get_formats ctx))).
Qed.

Lemma video_match_intro (x q : string) (f : Format) :
  video_only f = true -> format_note f = q ->
  (truthy x = true -> ext f = x) ->
  FormatSelector.video_match x q f = true.
Proof.
  unfold FormatSelector.video_match, video_only. intros Hv <- He.
  rewrite Hv, String.eqb_refl. destruct (truthy x); [|reflexivity].
  rewrite (He eq_refl), String.eqb_refl. reflexivity.
Qed.

Lemma audio_match_only (x : string) (a : Format) :
  FormatSelector.audio_match x a = true -> audio_only a = true.
Proof.
  unfold FormatSelector.audio_match, audio_only.
  rewrite !andb_true_iff. intros [[Hv Ha] _]. now rewrite Hv, Ha.
Qed.

Lemma audio_match_intro (x : string) (f : Format) :
  audio_only f = true -> ext f = x -> FormatSelector.audio_match x f = true.
Proof.
  unfold FormatSelector.audio_match, audio_only. intros Ha <-.
  rewrite Ha. destruct (truthy (ext f)); [apply String.eqb_refl | reflexivity].
Qed.

(** *** The parser on any selector *)

Lemma clamp_quality_canonical (h : string) :
  list_in (FormatSelector.clamp_quality h) FormatSelector.RESOLUTIONS = true.
Proof.
  unfold FormatSelector.clamp_quality.
  destruct (list_in h FormatSelector.RESOLUTIONS) eqn:Hh; cbn [negb];
    [assumption | reflexivity].
Qed.

Lemma is_audio_request_truthy (e : string) :
  is_audio_request e = true -> truthy e = true.
Proof.
  intros Ha. change (list_in e ["mp3"; "m4a"; "webm"; "wav"] = true) in Ha.
  apply list_in_true in Ha. cbn [In] in Ha.
  destruct Ha as [<- | [<- | [<- | [<- | []]]]]; reflexivity.
Qed.

(** What a successful run of the parser found. *)
Lemma parser_Ok_inv (ctx : Ctx) (self : FormatSelector.t) (r : Selection) :
  fst (FormatSelector.parser ctx self) = Ok r ->
  exists q x v a,
    list_in q FormatSelector.RESOLUTIONS = true
    /\ truthy x = true
    /\ (if is_audio_request (FormatSelector.extension self)
        then q = "144p" /\ x = FormatSelector.extension self
        else dict_get FormatSelector.MERGE (ext v) = Some x)
    /\ find (FormatSelector.video_match (FormatSelector.extension self) q)
         (rev (ctx_get_formats ctx)) = Some v
    /\ find (FormatSelector.audio_match x) (rev (ctx_get_formats ctx)) = Some a
    /\ r = {| sel_format_id := format_id v ++ "+" ++ format_id a;
              sel_ext := ext v;
              requested_formats := [v; a];
              sel_protocol := protocol v ++ "+" ++ protocol a |}.
Proof.
  rewrite parser_unfold. cbv zeta.
  destruct (truthy _ && negb _); [discriminate|].
  destruct (is_audio_request (FormatSelector.extension self)) eqn:Ha.
  - pose proof (is_audio_request_truthy _ Ha) as Ht.
    destruct (find _ (rev (ctx_get_formats ctx))) as [v |] eqn:Hv; [|discriminate].
    rewrite Ht.
    destruct (find (FormatSelector.audio_match _) _) as [a |] eqn:Hau; [|discriminate].
    intros [= <-]. exists "144p", (FormatSelector.extension self), v, a.
    repeat split; try assumption; reflexivity.
  - destruct (FormatSelector.get_highest_available_quality _) as [h | x];
      [|discriminate].
    destruct (find _ (rev (ctx_get_formats ctx))) as [v |] eqn:Hv; [|discriminate].
    unfold getitem.
    destruct (dict_get FormatSelector.MERGE (ext v)) as [x |] eqn:Hm; [|discriminate].
    pose proof (MERGE_values _ _ Hm) as Ht. rewrite Ht.
    destruct (find (FormatSelector.audio_match x) _) as [a |] eqn:Hau; [|discriminate].
    intros [= <-]. exists (FormatSelector.clamp_quality h), x, v, a.
    repeat split; try assumption. apply clamp_quality_canonical.
Qed.

(** X7: whatever extension the selector carries, a selection the parser
    returns pairs a video-only format and an audio-only format that both
    come from the catalog; the video's label is one of the six canonical
    resolutions; the combined id and protocol join the two formats' with
    ["+"] and the combined container is the video's. *)
Theorem parser_result_well_formed
    (ctx : Ctx) (self : FormatSelector.t) (r : Selection) :
  fst (FormatSelector.parser ctx self) = Ok r ->
  exists v a,
    requested_formats r = [v; a]
    /\ In v (ctx_get_formats ctx) /\ In a (ctx_get_formats ctx)
    /\ video_only v = true /\ audio_only a = true
    /\ In (format_note v) FormatSelector.RESOLUTIONS
    /\ sel_format_id r = format_id v ++ "+" ++ format_id a
    /\ sel_ext r = ext v
    /\ sel_protocol r = protocol v ++ "+" ++ protocol a.
Proof.
  intros H. apply parser_Ok_inv in H as (q & x & v & a & Hq & Hx & _ & Hv & Ha & ->).
  apply find_some in Hv as [Hvin Hv]. apply find_some in Ha as [Hain Ha].
  apply in_rev in Hvin. apply in_rev in Hain.
  apply video_match_spec in Hv as (Hvo & Hn & _).
  apply audio_match_only in Ha. apply list_in_true in Hq.
  exists v, a. cbn. rewrite Hn. repeat split; assumption.
Qed.

Lemma parser_result_well_formed_witness :
  fst (FormatSelector.parser (mkCtx (Some catalog_mixed)) (FormatSelector.mk "webm"))
  = Ok {| sel_format_id := "278+249";
          sel_ext := "webm";
          requested_formats :=
            [video_fmt "278" "webm" "144p"; audio_fmt "249" "webm"];
          sel_protocol := "https+https" |}
  /\ exists v a,
       [video_fmt "278" "webm" "144p"; audio_fmt "249" "webm"] = [v; a]
       /\ In v catalog_mixed /\ In a catalog_mixed
       /\ video_only v = true /\ audio_only a = true
       /\ In (format_note v) FormatSelector.RESOLUTIONS
       /\ "278+249" = format_id v ++ "+" ++ format_id a
       /\ "webm" = ext v
       /\ "https+https" = protocol v ++ "+" ++ protocol a.
Proof.
  split; [reflexivity|].
  apply (parser_result_well_formed (mkCtx (Some catalog_mixed))
           (FormatSelector.mk "webm")
           {| sel_format_id := "278+249";
              sel_ext := "webm";
              requested_formats :=
                [video_fmt "278" "webm" "144p"; audio_fmt "249" "webm"];
              sel_protocol := "https+https" |}).
  reflexivity.
Defined.

(** The failures of the parser, case by case. *)
Lemma parser_Raise_inv (ctx : Ctx) (self : FormatSelector.t) (ex : exn) :
  fst (FormatSelector.parser ctx self) = Raise ex ->
  (truthy (FormatSelector.extension self) = true
   /\ known_extension (FormatSelector.extension self) = false
   /\ ex = UnavailableExtensionError (FormatSelector.extension self))
  \/ (truthy (FormatSelector.extension self) && negb (known_extension (FormatSelector.extension self)) = false
      /\ ((is_audio_request (FormatSelector.extension self) = false
           /\ ctx_get_formats ctx = []
           /\ ex = ValueError "max() arg is an empty sequence")
          \/ (exists v, In v (ctx_get_formats ctx) /\ video_only v = true
                /\ is_audio_request (FormatSelector.extension self) = false
                /\ dict_get FormatSelector.MERGE (ext v) = None
                /\ ex = KeyError (ext v))
          \/ ex = NoMatchingFormatError)).
Proof.
  rewrite parser_unfold. cbv zeta.
  destruct (truthy _ && negb _) eqn:Hc.
  { intros [= <-]. left. apply andb_true_iff in Hc as [Ht Hk].
    apply negb_true_iff in Hk. now repeat split. }
  intros H. right. split; [reflexivity|].
  destruct (is_audio_request (FormatSelector.extension self)) eqn:Ha.
  - destruct (find _ (rev (ctx_get_formats ctx))) as [v |];
      [|injection H as <-; now right; right].
    destruct (find (FormatSelector.audio_match _) _); [discriminate|].
    injection H as <-. now right; right.
  - destruct (FormatSelector.get_highest_available_quality _) as [h | x] eqn:Hh.
    2: { injection H as <-.
         apply get_highest_available_quality_Raise in Hh as [-> Hnil].
         left. repeat split.
         apply (f_equal (@rev Format)) in Hnil. now rewrite rev_involutive in Hnil. }
    destruct (find _ (rev (ctx_get_formats ctx))) as [v |] eqn:Hv;
      [|injection H as <-; now right; right].
    unfold getitem in H.
    destruct (dict_get FormatSelector.MERGE (ext v)) as [x |] eqn:Hm.
    + destruct (find (FormatSelector.audio_match _) _); [discriminate|].
      injection H as <-. now right; right.
    + injection H as <-. right; left. exists v.
      apply find_some in Hv as [Hin Hv]. apply in_rev in Hin.
      apply video_match_spec in Hv as (Hvo & _ & _). now repeat split.
Qed.

(** X8: the parser raises the unavailable-extension error for the
    selector's extension exactly when that extension is non-empty and
    outside the extension table, whatever the catalog holds. *)
Theorem parser_unavailable_extension_iff (ctx : Ctx) (self : FormatSelector.t) :
  fst (FormatSelector.parser ctx self)
  = Raise (UnavailableExtensionError (FormatSelector.extension self))
  <-> truthy (FormatSelector.extension self) = true
      /\ known_extension (FormatSelector.extension self) = false.
Proof.
  split.
  - intros H. apply parser_Raise_inv in H as [(Ht & Hk & _) | [_ H]]; [now split|].
    exfalso. destruct H as [(_ & _ & H) | [(v & _ & _ & _ & _ & H) | H]];
      cbn in H; discriminate.
  - intros [Ht Hk]. rewrite parser_unfold. cbv zeta. now rewrite Ht, Hk.
Qed.

(** X10: on an empty catalog, or a context without the key [formats], the
    parser always fails: with the unavailable-extension error for an
    extension outside the table, with the exhausted search for an audio
    extension, and with the [ValueError] of [max] otherwise. *)
Theorem parser_empty_catalog (ctx : Ctx) (self : FormatSelector.t) :
  ctx_get_formats ctx = [] ->
  fst (FormatSelector.parser ctx self)
  = if truthy (FormatSelector.extension self)
       && negb (known_extension (FormatSelector.extension self))
    then Raise (UnavailableExtensionError (FormatSelector.extension self))
    else if is_audio_request (FormatSelector.extension self)
    then Raise NoMatchingFormatError
    else Raise (ValueError "max() arg is an empty sequence").
Proof.
  intros Hnil. rewrite parser_unfold. cbv zeta. rewrite Hnil. cbn [rev find].
  destruct (truthy _ && negb _); [reflexivity|].
  now destruct (is_audio_request _).
Qed.

Lemma parser_empty_catalog_witness :
  ctx_get_formats (mkCtx None) = []
  /\ fst (FormatSelector.parser (mkCtx None) (FormatSelector.mk "mp3"))
     = if truthy (FormatSelector.extension (FormatSelector.mk "mp3"))
          && negb (known_extension (FormatSelector.extension (FormatSelector.mk "mp3")))
       then Raise (UnavailableExtensionError
                     (FormatSelector.extension (FormatSelector.mk "mp3")))
       else if is_audio_request (FormatSelector.extension (FormatSelector.mk "mp3"))
       then Raise NoMatchingFormatError
       else Raise (ValueError "max() arg is an empty sequence").
Proof.
  split; [reflexivity|].
  apply (parser_empty_catalog (mkCtx None) (FormatSelector.mk "mp3")). reflexivity.
Defined.

(** X11: because the parser searches the catalog in reverse, among the
    formats that pass a filter it takes the one listed last: no later entry
    of the catalog is video-only with the chosen video's label (and the
    selector's container, when it carries one), and no later entry is
    audio-only in the chosen audio's container. *)
Theorem parser_takes_last_listed
    (ctx : Ctx) (self : FormatSelector.t) (r : Selection) :
  fst (FormatSelector.parser ctx self) = Ok r ->
  exists v a l1 l2 m1 m2,
    requested_formats r = [v; a]
    /\ ctx_get_formats ctx = (l1 ++ v :: l2)%list
    /\ (forall f, In f l2 ->
          ~ (video_only f = true /\ format_note f = format_note v
             /\ (truthy (FormatSelector.extension self) = true ->
                 ext f = FormatSelector.extension self)))
    /\ ctx_get_formats ctx = (m1 ++ a :: m2)%list
    /\ (forall f, In f m2 -> ~ (audio_only f = true /\ ext f = ext a)).
Proof.
  intros H. apply parser_Ok_inv in H as (q & x & v & a & _ & Hx & _ & Hv & Ha & ->).
  apply find_first in Hv as (l1 & l2 & Hl & Hv & Hl1).
  apply find_first in Ha as (m1 & m2 & Hm & Ha & Hm1).
  apply video_match_spec in Hv as (_ & Hn & _).
  apply (audio_match_ext _ _ Hx) in Ha as [_ He].
  apply (f_equal (@rev Format)) in Hl, Hm.
  rewrite rev_involutive, rev_app_distr in Hl, Hm.
  cbn [rev] in Hl, Hm. rewrite <- app_assoc in Hl, Hm. cbn [app] in Hl, Hm.
  exists v, a, (rev l2), (rev l1), (rev m2), (rev m1).
  repeat split; try assumption.
  - intros f Hf (Hvo & Hnote & Hext). apply in_rev in Hf.
    specialize (Hl1 f Hf).
    rewrite video_match_intro in Hl1; [discriminate | assumption | congruence | assumption].
  - intros f Hf (Hao & Hext). apply in_rev in Hf.
    specialize (Hm1 f Hf).
    rewrite audio_match_intro in Hm1; [discriminate | assumption | congruence].
Qed.

Lemma parser_takes_last_listed_witness :
  fst (FormatSelector.parser (mkCtx (Some catalog_hd)) (FormatSelector.mk "")) = Ok selection_hd
  /\ exists v a l1 l2 m1 m2,
       requested_formats selection_hd = [v; a]
       /\ ctx_get_formats (mkCtx (Some catalog_hd)) = (l1 ++ v :: l2)%list
       /\ (forall f, In f l2 ->
             ~ (video_only f = true /\ format_note f = format_note v
                /\ (truthy (FormatSelector.extension (FormatSelector.mk "")) = true ->
                    ext f = FormatSelector.extension (FormatSelector.mk ""))))
       /\ ctx_get_formats (mkCtx (Some catalog_hd)) = (m1 ++ a :: m2)%list
       /\ (forall f, In f m2 -> ~ (audio_only f = true /\ ext f = ext a)).
Proof.
  split; [reflexivity|].
  apply (parser_takes_last_listed (mkCtx (Some catalog_hd)) (FormatSelector.mk "")
           selection_hd).
  reflexivity.
Defined.

(** X12: on a selector that carries an audio extension, a selection the
    parser returns has a video format labelled ["144p"], and both the video
    and the audio format are in the container of that extension. *)
Theorem parser_audio_request_containers
    (ctx : Ctx) (self : FormatSelector.t) (r : Selection) :
  is_audio_request (FormatSelector.extension self) = true ->
  fst (FormatSelector.parser ctx self) = Ok r ->
  exists v a,
    requested_formats r = [v; a]
    /\ format_note v = "144p"
    /\ ext v = FormatSelector.extension self
    /\ ext a = FormatSelector.extension self
    /\ sel_ext r = FormatSelector.extension self.
Proof.
  intros Ha H.
  apply parser_Ok_inv in H as (q & x & v & a & _ & Hx & Hq & Hv & Hau & ->).
  rewrite Ha in Hq. destruct Hq as [-> ->].
  apply find_some in Hv as [_ Hv]. apply find_some in Hau as [_ Hau].
  apply video_match_spec in Hv as (_ & Hn & He).
  apply (audio_match_ext _ _ Hx) in Hau as [_ Hea].
  exists v, a. cbn. repeat split; auto.
Qed.

Lemma parser_audio_request_containers_witness :
  is_audio_request (FormatSelector.extension (FormatSelector.mk "webm")) = true
  /\ fst (FormatSelector.parser (mkCtx (Some catalog_mixed)) (FormatSelector.mk "webm"))
     = Ok {| sel_format_id := "278+249";
             sel_ext := "webm";
             requested_formats :=
               [video_fmt "278" "webm" "144p"; audio_fmt "249" "webm"];
             sel_protocol := "https+https" |}
  /\ exists v a,
       [video_fmt "278" "webm" "144p"; audio_fmt "249" "webm"] = [v; a]
       /\ format_note v = "144p"
       /\ ext v = "webm" /\ ext a = "webm" /\ "webm" = "webm".
Proof.
  split; [reflexivity|]. split; [reflexivity|].
  apply (parser_audio_request_containers (mkCtx (Some catalog_mixed))
           (FormatSelector.mk "webm")
           {| sel_format_id := "278+249";
              sel_ext := "webm";
              requested_formats :=
                [video_fmt "278" "webm" "144p"; audio_fmt "249" "webm"];
              sel_protocol := "https+https" |});
    reflexivity.
Defined.

(** X13: a selection through a freshly constructed selector raises the
    [ValueError] of [max] exactly when the catalog is empty, and it never
    raises the unavailable-extension error, whatever extension was
    requested. *)
Theorem select_empty_catalog_iff (catalog : list Format) (e : string) :
  (select catalog e = Raise (ValueError "max() arg is an empty sequence")
   <-> catalog = [])
  /\ (forall x, select catalog e <> Raise (UnavailableExtensionError x)).
Proof.
  rewrite select_unfold.
  destruct (FormatSelector.get_highest_available_quality (rev catalog))
    as [q | ex] eqn:Hq.
  - assert (Hne : catalog <> []).
    { intros ->. discriminate. }
    destruct (find _ (rev catalog)) as [v |].
    + destruct (dict_get FormatSelector.MERGE (ext v)) as [p |].
      * destruct (find _ (rev catalog)); (split; [split; [discriminate | contradiction]|]);
          intros x; discriminate.
      * split; [split; [discriminate | contradiction] | intros x; discriminate].
    + split; [split; [discriminate | contradiction] | intros x; discriminate].
  - apply get_highest_available_quality_Raise in Hq as [-> Hnil].
    apply (f_equal (@rev Format)) in Hnil. rewrite rev_involutive in Hnil.
    split; [now split | intros x; cbn; discriminate].
Qed.

(** *** The download flow *)

Lemma prefix_spec (x s : string) :
  String.prefix x s = true <-> exists b, s = x ++ b.
Proof.
  revert s. induction x as [|c x IH]; intros s; cbn [String.prefix].
  - split; [intros _; now exists s | now destruct s].
  - destruct s as [|c' s].
    + split; [discriminate | intros [b H]; discriminate].
    + cbn [String.prefix]. destruct (ascii_dec c c') as [<- | Hne].
      * rewrite IH. split; intros [b H]; exists b; cbn in *; congruence.
      * split; [discriminate | intros [b H]; cbn in H; congruence].
Qed.

(** [x in s] holds exactly when [s] splits around an occurrence of [x]. *)
Lemma str_in_spec (x s : string) :
  str_in x s = true <-> exists a b, s = a ++ x ++ b.
Proof.
  induction s as [|c s IH]; cbn [str_in]; rewrite orb_true_iff, prefix_spec.
  - split.
    + intros [[b H] | H]; [|discriminate]. now exists "", b.
    + intros ([|c a] & b & H); [|discriminate]. left. now exists b.
  - rewrite IH. split.
    + intros [[b H] | (a & b & H)]; [now exists "", b|].
      exists (String c a), b. cbn. now rewrite H.
    + intros ([|c' a] & b & H); [left; now exists b|].
      right. cbn in H. injection H as _ H. now exists a, b.
Qed.

(** X14: the URL check refuses a URL exactly when none of its conditions
    holds: the URL does not start with [https], every banned word occurs in
    it, and neither [watch] nor [you] occurs in it.  In particular every
    URL that starts with [https] is let through. *)
Theorem check_url_refuses_iff (self : Downloader.t) (url : string) :
  (Downloader._check_url self url = true
   <-> startswith url "https" = false
       /\ (forall x, In x (Downloader.banned self) -> str_in x url = true)
       /\ str_in "watch" url = false
       /\ str_in "you" url = false)
  /\ (startswith url "https" = true -> Downloader._check_url self url = false).
Proof.
  unfold Downloader._check_url, any.
  assert (Hb : existsb (fun b => b)
                 (map (fun x => negb (str_in x url)) (Downloader.banned self)) = false
               <-> forall x, In x (Downloader.banned self) -> str_in x url = true).
  { induction (Downloader.banned self) as [|w l IH]; cbn [map existsb In].
    - split; [intros _ x [] | reflexivity].
    - rewrite orb_false_iff, IH, negb_false_iff. split.
      + intros [Hw Hl] x [<- | Hx]; auto.
      + intros H. split; [apply H; now left | intros x Hx; apply H; now right]. }
  split.
  - rewrite negb_true_iff. cbn [app existsb].
    rewrite orb_false_iff, existsb_app, orb_false_iff, Hb. cbn [existsb].
    rewrite !orb_false_iff. tauto.
  - intros Hs. cbn [app existsb]. now rewrite Hs.
Qed.

(** X15: [download_video] itself assigns only the metadata and the file
    path: the URL, extension, storage and banned list of the downloader keep
    their values.  When it returns, the URL had passed the check, the
    metadata are the ones the engine returned and the file path is
    [storage/title.extension], which [location] then returns.  When it
    raises, the file path is as before, and a URL refused by the check
    raises the invalid-URL error before any engine is built and leaves the
    downloader as it was. *)
Theorem download_video_assigns
    (engine : Options -> YoutubeDL) (self : Downloader.t)
    (url : string) (processors : list Processor) :
  let out := Downloader.download_video engine self url processors in
  Downloader.url (snd out) = Downloader.url self
  /\ Downloader.extension (snd out) = Downloader.extension self
  /\ Downloader.storage (snd out) = Downloader.storage self
  /\ Downloader.banned (snd out) = Downloader.banned self
  /\ match fst out with
     | Ok _ =>
         Downloader._check_url self url = false
         /\ exists m,
              extract_info (engine (Downloader.ydl_opts self)) url = Ok m
              /\ Downloader.metadata (snd out) = Some m
              /\ Downloader.file_path (snd out)
                 = Some (Downloader.storage self ++ "/" ++ title m ++ "."
                         ++ Downloader.extension self)
              /\ DownloaderMethods.location (snd out)
                 = inr (Downloader.storage self ++ "/" ++ title m ++ "."
                        ++ Downloader.extension self)
     | Raise e =>
         Downloader.file_path (snd out) = Downloader.file_path self
         /\ (Downloader._check_url self url = true ->
             snd out = self /\ e = InvalidUrlError)
     end.
Proof.
  cbv zeta. unfold Downloader.download_video.
  destruct (Downloader._check_url self url) eqn:Hu.
  { cbn [fst snd]. repeat split. }
  destruct (extract_info (engine (Downloader.ydl_opts self)) url) as [m | e] eqn:Hi.
  2: { cbn [fst snd]. repeat split; discriminate. }
  cbn [Downloader.ydl_opts Downloader.set_metadata].
  destruct (download (engine (Downloader.ydl_opts self)) processors [url])
    as [code | e].
  2: { cbn [fst snd]. repeat split; discriminate. }
  destruct (code =? 1)%Z; cbn [fst snd].
  - repeat split; discriminate.
  - repeat split. exists m. repeat split.
Qed.

(** *** Cleanup of the downloaded file *)




(** *** Updates of the engine options *)

Lemma dict_get_set {V} (d : dict V) (k q : string) (v : V) :
  dict_get (dict_set d k v) q = if k =? q then Some v else dict_get d q.
Proof.
  induction d as [|[k' v'] d IH]; cbn [dict_set].
  - unfold dict_get. now destruct (k =? q).
  - destruct (String.eqb_spec k' k) as [-> | Hk];
      unfold dict_get; fold (@dict_get V).
    + now destruct (k =? q).
    + rewrite IH. destruct (String.eqb_spec k' q) as [-> | Hq]; [|reflexivity].
      destruct (String.eqb_spec k q) as [-> | _]; [contradiction | reflexivity].
Qed.

Lemma dict_set_keys {V} (d : dict V) (k : string) (v : V) :
  map fst (dict_set d k v)
  = if list_in k (map fst d) then map fst d else (map fst d ++ [k])%list.
Proof.
  induction d as [|[k' v'] d IH]; cbn [dict_set map fst]; [reflexivity|].
  unfold list_in in *. cbn [existsb app].
  rewrite (String.eqb_sym k k').
  destruct (k' =? k); cbn [map fst orb]; [reflexivity|].
  rewrite IH. now destruct (existsb (String.eqb k) (map fst d)).
Qed.

Lemma dict_set_unique {V} (d : dict V) (k : string) (v : V) :
  unique_keys d -> unique_keys (dict_set d k v).
Proof.
  unfold unique_keys. intros Hd. rewrite dict_set_keys.
  destruct (list_in k (map fst d)) eqn:Hk; [assumption|].
  apply NoDup_app; [assumption | repeat constructor; intros [] |].
  intros x Hx [<- | []]. apply list_in_true in Hx. congruence.
Qed.

Lemma dict_update_unique {V} (u d : dict V) :
  unique_keys d -> unique_keys (dict_update d u).
Proof.
  unfold dict_update. revert d.
  induction u as [|[k v] u IH]; intros d Hd; cbn [fold_left fst snd];
    [assumption|].
  apply IH. now apply dict_set_unique.
Qed.

Lemma dict_get_In {V} (d : dict V) (k : string) (v : V) :
  dict_get d k = Some v -> In (k, v) d.
Proof.
  induction d as [|[k' v'] d IH]; unfold dict_get; fold (@dict_get V);
    [discriminate|].
  destruct (String.eqb_spec k' k) as [-> | _]; [intros [= <-]; now left|].
  intros H. right. now apply IH.
Qed.

Lemma dict_get_None {V} (d : dict V) (k : string) :
  dict_get d k = None -> ~ In k (map fst d).
Proof.
  induction d as [|[k' v'] d IH]; unfold dict_get; fold (@dict_get V);
    [intros _ []|].
  destruct (String.eqb_spec k' k) as [-> | Hne]; [discriminate|].
  intros H [Hk | Hk]; [contradiction | now apply IH].
Qed.

(** With one entry per key, an update binds each of its keys to its own
    value and leaves the other keys as they were. *)
Lemma dict_get_update {V} (u : dict V) :
  unique_keys u ->
  forall (d : dict V) (q : string),
    dict_get (dict_update d u) q
    = match dict_get u q with
      | Some v => Some v
      | None => dict_get d q
      end.
Proof.
  unfold dict_update, unique_keys.
  induction u as [|[k v] u IH]; intros Hu d q; cbn [fold_left fst snd];
    [reflexivity|].
  cbn [map fst] in Hu. inversion Hu as [|? ? Hk Hu']; subst.
  rewrite (IH Hu'). unfold dict_get at 3; fold (@dict_get V).
  rewrite dict_get_set.
  destruct (String.eqb_spec k q) as [-> | Hne]; [|reflexivity].
  destruct (dict_get u q) as [w |] eqn:Hq; [|reflexivity].
  exfalso. apply Hk. apply dict_get_In in Hq.
  change q with (fst (q, w)). now apply in_map.
Qed.

(** X17: after [update_ydl_config], a key bound by [progression] has that
    value, otherwise a key bound by [ydl_options] has that value, and every
    other key keeps the value it had; an argument left at [None] binds
    nothing; the options still hold one entry per key. *)
Theorem update_ydl_config_lookup {V} (ydl_opts : dict V)
    (ydl_options progression : option (dict V)) (q : string) :
  optional_unique_keys ydl_options ->
  optional_unique_keys progression ->
  dict_get (DownloaderMethods.update_ydl_config ydl_opts ydl_options progression) q
  = match optional_get progression q with
    | Some v => Some v
    | None =>
        match optional_get ydl_options q with
        | Some v => Some v
        | None => dict_get ydl_opts q
        end
    end
  /\ (unique_keys ydl_opts ->
      unique_keys
        (DownloaderMethods.update_ydl_config ydl_opts ydl_options progression)).
Proof.
  unfold DownloaderMethods.update_ydl_config, optional_get, optional_unique_keys.
  intros Ho Hp.
  destruct ydl_options as [o |], progression as [p |];
    repeat rewrite dict_get_update by assumption;
    (split; [reflexivity|]); intros Hd;
    repeat apply dict_update_unique; assumption.
Qed.

Lemma update_ydl_config_lookup_witness :
  optional_unique_keys (@None (dict string))
  /\ optional_unique_keys (Some sample_progression)
  /\ dict_get (DownloaderMethods.update_ydl_config sample_opts None
                 (Some sample_progression)) "format"
     = match optional_get (Some sample_progression) "format" with
       | Some v => Some v
       | None =>
           match optional_get (@None (dict string)) "format" with
           | Some v => Some v
           | None => dict_get sample_opts "format"
           end
       end
  /\ (unique_keys sample_opts ->
      unique_keys
        (DownloaderMethods.update_ydl_config sample_opts None
           (Some sample_progression))).
Proof.
  assert (Hp : optional_unique_keys (Some sample_progression)).
  { cbn. repeat constructor. intros []. }
  split; [exact I|]. split; [exact Hp|].
  apply (update_ydl_config_lookup sample_opts None (Some sample_progression) "format");
    [exact I | exact Hp].
Defined.

(** *** Post-processors chosen by the page *)

Lemma EXTENSIONS_video : getitem EXTENSIONS "video" = Ok ["mp4"; "webm"].
Proof. reflexivity. Qed.

Lemma known_extension_split (e : string) :
  known_extension e
  = list_in e ["mp4"; "webm"] || list_in e ["mp3"; "m4a"; "webm"; "wav"].
Proof.
  unfold known_extension. rewrite EXTENSIONS_flat. unfold list_in.
  change ["mp4"; "webm"; "mp3"; "m4a"; "webm"; "wav"]
    with (["mp4"; "webm"] ++ ["mp3"; "m4a"; "webm"; "wav"])%list.
  apply existsb_app.
Qed.

(** X18: the page attaches the audio extractor exactly for an extension of
    the audio list and the video converter exactly for one of the video
    list, each for the chosen extension; it attaches nothing exactly when
    the extension is outside the table (as is the empty extension of
    [auto]), and both exactly for [webm]. *)
Theorem post_processors_by_extension (extension : string) :
  exists ps,
    Video.post_processors extension = Ok ps
    /\ (In (FFmpegExtractAudioPP extension) ps
        <-> is_audio_request extension = true)
    /\ (In (FFmpegVideoConvertorPP extension) ps
        <-> list_in extension ["mp4"; "webm"] = true)
    /\ (forall p, In p ps ->
          p = FFmpegExtractAudioPP extension \/ p = FFmpegVideoConvertorPP extension)
    /\ (ps = [] <-> known_extension extension = false)
    /\ (length ps = 2%nat <-> extension = "webm")
    /\ Video.post_processors (Video.auto_extension "auto") = Ok [].
Proof.
  unfold Video.post_processors. rewrite EXTENSIONS_audio, EXTENSIONS_video.
  cbv zeta. eexists. split; [reflexivity|].
  rewrite known_extension_split.
  change (is_audio_request extension)
    with (list_in extension ["mp3"; "m4a"; "webm"; "wav"]).
  destruct (list_in extension ["mp3"; "m4a"; "webm"; "wav"]) eqn:Ha;
    destruct (list_in extension ["mp4"; "webm"]) eqn:Hv; cbn [app In length orb].
  - apply list_in_true in Ha, Hv. cbn [In] in Ha, Hv.
    assert (He : extension = "webm").
    { destruct Hv as [<- | [<- | []]]; [|reflexivity].
      destruct Ha as [H | [H | [H | [H | []]]]]; discriminate. }
    repeat split; auto; try discriminate.
    intros p [<- | [<- | []]]; auto.
  - repeat split; auto; try discriminate.
    + intros [H | []]; discriminate.
    + intros p [<- | []]; auto.
    + intros ->. vm_compute in Hv. discriminate.
  - repeat split; auto; try discriminate.
    + intros [H | []]; discriminate.
    + intros p [<- | []]; auto.
    + intros ->. vm_compute in Ha. discriminate.
  - repeat split; auto; try discriminate; try contradiction.
    intros ->. vm_compute in Ha. discriminate.
Qed.

(** ** The selector on raw descriptors *)

#[local] Arguments getitem : simpl never.
#[local] Arguments Raw.get_highest_available_quality : simpl never.
#[local] Arguments Raw.video_match : simpl never.
#[local] Arguments Raw.audio_match : simpl never.

Ltac run_raw_selector :=
  unfold Raw.parser, Raw.parser_body, Raw.retrieve_video_format,
    Raw.retrieve_audio_format, FormatSelector.bind, FormatSelector.ret,
    FormatSelector.lift, FormatSelector.raise, FormatSelector.self_extension in *.

Lemma Raw_parser_unfold (ctx : Raw.Ctx) (self : FormatSelector.t) :
  Raw.parser ctx self
  = (generator_exit
       (raw_parser_steps (FormatSelector.extension self)
          (rev (Raw.ctx_get_formats ctx))),
     self).
Proof.
  destruct self as [e]. unfold raw_parser_steps. cbv zeta.
  run_raw_selector. rewrite EXTENSIONS_audio, !EXTENSIONS_flat. cbn.
  destruct (truthy e && negb (list_in e ["mp4"; "webm"; "mp3"; "m4a"; "webm"; "wav"]));
    [reflexivity|].
  cbn. destruct (list_in e ["mp3"; "m4a"; "webm"; "wav"]); cbn.
  - destruct (Raw.next (Raw.video_match e "144p") (rev (Raw.ctx_get_formats ctx)))
      as [v | x]; cbn; [|now destruct x].
    destruct (truthy e); cbn;
      (destruct (Raw.next (Raw.audio_match e) (rev (Raw.ctx_get_formats ctx)))
         as [a | x]; cbn; [|now destruct x]);
      (destruct (getitem v "format_id") as [vi | x]; cbn; [|now destruct x]);
      (destruct (getitem a "format_id") as [ai | x]; cbn; [|now destruct x]);
      (destruct (getitem v "ext") as [vx | x]; cbn; [|now destruct x]);
      (destruct (getitem v "protocol") as [vp | x]; cbn; [|now destruct x]);
      (destruct (getitem a "protocol") as [ap | x]; cbn; [|now destruct x]);
      reflexivity.
  - destruct (Raw.get_highest_available_quality (rev (Raw.ctx_get_formats ctx)))
      as [h | x]; cbn; [|now destruct x].
    destruct (Raw.next (Raw.video_match e (FormatSelector.clamp_quality h))
                (rev (Raw.ctx_get_formats ctx)))
      as [v | x]; cbn; [|now destruct x].
    destruct (getitem v "ext") as [vx | x]; cbn; [|now destruct x].
    destruct (getitem FormatSelector.MERGE vx) as [m | x]; cbn;
      [|now destruct x].
    destruct (truthy m); cbn;
      (match goal with |- context [Raw.next ?p ?l] =>
         destruct (Raw.next p l) as [a | x]; cbn; [|now destruct x] end);
      (destruct (getitem v "format_id") as [vi | x]; cbn; [|now destruct x]);
      (destruct (getitem a "format_id") as [ai | x]; cbn; [|now destruct x]);
      (destruct (getitem v "protocol") as [vp | x]; cbn; [|now destruct x]);
      (destruct (getitem a "protocol") as [ap | x]; cbn; [|now destruct x]);
      reflexivity.
Qed.

(** Descriptors that carry the six keys. *)

Lemma of_dict_getitem (d : Descriptor) (f : Format) :
  of_dict d = Some f ->
  getitem d "format_id" = Ok (format_id f)
  /\ getitem d "vcodec" = Ok (vcodec f)
  /\ getitem d "acodec" = Ok (acodec f)
  /\ getitem d "ext" = Ok (ext f)
  /\ getitem d "format_note" = Ok (format_note f)
  /\ getitem d "protocol" = Ok (protocol f).
Proof.
  unfold of_dict, getitem.
  destruct (dict_get d "format_id"), (dict_get d "vcodec"), (dict_get d "acodec"),
    (dict_get d "ext"), (dict_get d "format_note"), (dict_get d "protocol");
    try discriminate.
  intros [= <-]. repeat split.
Qed.

Lemma of_dict_to_dict (f : Format) : of_dict (to_dict f) = Some f.
Proof. now destruct f. Qed.

Lemma views_to_dict (fs : list Format) : views (map to_dict fs) fs.
Proof.
  induction fs as [|f fs IH]; constructor; [apply of_dict_to_dict | exact IH].
Qed.

Lemma views_rev (ds : list Descriptor) (fs : list Format) :
  views ds fs -> views (rev ds) (rev fs).
Proof.
  unfold views. induction 1 as [|d f ds fs Hd _ IH]; cbn [rev]; [constructor|].
  apply Forall2_app; [exact IH | now repeat constructor].
Qed.

Lemma Raw_video_match_view (x q : string) (d : Descriptor) (f : Format) :
  of_dict d = Some f ->
  Raw.video_match x q d = Ok (FormatSelector.video_match x q f).
Proof.
  intros H. apply of_dict_getitem in H as (_ & Hv & Ha & He & Hn & _).
  unfold Raw.video_match, FormatSelector.video_match.
  rewrite Hv, Ha, He, Hn. cbn [Raw.fmap Raw.and_then].
  destruct (negb (vcodec f =? "none")); [|reflexivity].
  destruct (acodec f =? "none"); [|reflexivity].
  destruct (truthy x); cbn [Raw.fmap andb]; [|reflexivity].
  now destruct (ext f =? x).
Qed.

Lemma Raw_audio_match_view (x : string) (d : Descriptor) (f : Format) :
  of_dict d = Some f ->
  Raw.audio_match x d = Ok (FormatSelector.audio_match x f).
Proof.
  intros H. apply of_dict_getitem in H as (_ & Hv & Ha & He & _ & _).
  unfold Raw.audio_match, FormatSelector.audio_match.
  rewrite Hv, Ha, He. cbn [Raw.fmap Raw.and_then].
  destruct (vcodec f =? "none"); [|reflexivity].
  destruct (negb (acodec f =? "none")); [|reflexivity].
  now destruct (truthy x).
Qed.

Lemma Raw_next_view (p' : Descriptor -> result bool) (p : Format -> bool)
    (ds : list Descriptor) (fs : list Format) :
  (forall d f, of_dict d = Some f -> p' d = Ok (p f)) ->
  views ds fs ->
  match Raw.next p' ds, find p fs with
  | Ok d, Some f => of_dict d = Some f
  | Raise e, None => e = StopIteration
  | _, _ => False
  end.
Proof.
  intros Hp. induction 1 as [|d f ds fs Hd _ IH]; cbn [Raw.next find];
    [reflexivity|].
  rewrite (Hp d f Hd). now destruct (p f).
Qed.

Lemma Raw_get_highest_view (ds : list Descriptor) (fs : list Format) :
  views ds fs ->
  Raw.get_highest_available_quality ds
  = FormatSelector.get_highest_available_quality fs.
Proof.
  intros H. unfold Raw.get_highest_available_quality,
    FormatSelector.get_highest_available_quality.
  assert (Hm : Data.map_itemgetter "format_note" ds = Ok (map format_note fs)).
  { induction H as [|d f ds fs Hd _ IH]; cbn [Data.map_itemgetter map];
      [reflexivity|].
    apply of_dict_getitem in Hd as (_ & _ & _ & _ & Hn & _).
    now rewrite Hn, IH. }
  now rewrite Hm.
Qed.

(** On a catalog whose descriptors carry the six keys, the selector over
    records computes what the selector over raw descriptors computes: the
    same exception, or the same strings and the same two formats. *)
Lemma Raw_parser_agrees (ds : list Descriptor) (fs : list Format)
    (self : FormatSelector.t) :
  views ds fs ->
  outcome_agrees
    (fst (Raw.parser (Raw.mkCtx (Some ds)) self))
    (fst (FormatSelector.parser (mkCtx (Some fs)) self)).
Proof.
  intros Hv. apply views_rev in Hv.
  rewrite Raw_parser_unfold, parser_unfold. cbn [fst]. cbv zeta.
  unfold raw_parser_steps, known_extension.
  change (is_audio_request (FormatSelector.extension self))
    with (list_in (FormatSelector.extension self) ["mp3"; "m4a"; "webm"; "wav"]).
  cbn [Raw.ctx_get_formats Raw.formats ctx_get_formats formats].
  set (e := FormatSelector.extension self).
  destruct (truthy e && negb (list_in e (concat (values EXTENSIONS))));
    [reflexivity|].
  assert (Htail : forall (dv : Descriptor) (fv : Format) (x : string),
    of_dict dv = Some fv ->
    outcome_agrees
      (generator_exit
         (rbind (Raw.next (Raw.audio_match (if truthy x then x else e)) (rev ds))
            (fun audio =>
          rbind (getitem dv "format_id") (fun video_id =>
          rbind (getitem audio "format_id") (fun audio_id =>
          rbind (getitem dv "ext") (fun video_ext =>
          rbind (getitem dv "protocol") (fun video_protocol =>
          rbind (getitem audio "protocol") (fun audio_protocol =>
          Ok {| Raw.sel_format_id := video_id ++ "+" ++ audio_id;
                Raw.sel_ext := video_ext;
                Raw.requested_formats := [dv; audio];
                Raw.sel_protocol := video_protocol ++ "+" ++ audio_protocol |}
          ))))))))
      (match find (FormatSelector.audio_match (if truthy x then x else e))
                  (rev fs) with
       | None => Raise NoMatchingFormatError
       | Some a =>
           Ok {| sel_format_id := format_id fv ++ "+" ++ format_id a;
                 sel_ext := ext fv;
                 requested_formats := [fv; a];
                 sel_protocol := protocol fv ++ "+" ++ protocol a |}
       end)).
  { intros dv fv x Hdv.
    pose proof (Raw_next_view _ _ _ _
                  (Raw_audio_match_view (if truthy x then x else e)) Hv) as Hn.
    destruct (Raw.next _ (rev ds)) as [da | y],
      (find (FormatSelector.audio_match _) (rev fs)) as [fa |];
      try contradiction; [|subst y; reflexivity].
    pose proof (of_dict_getitem _ _ Hdv) as (Hi & _ & _ & He & _ & Hp).
    pose proof (of_dict_getitem _ _ Hn) as (Hi' & _ & _ & _ & _ & Hp').
    cbn [rbind]. rewrite Hi, Hi', He, Hp, Hp'. cbn [rbind generator_exit].
    repeat split. repeat constructor; assumption. }
  destruct (list_in e ["mp3"; "m4a"; "webm"; "wav"]); cbn [rbind].
  - pose proof (Raw_next_view _ _ _ _ (Raw_video_match_view e "144p") Hv) as Hn.
    destruct (Raw.next _ (rev ds)) as [dv | y],
      (find (FormatSelector.video_match _ _) (rev fs)) as [fv |];
      try contradiction; [|subst y; reflexivity].
    cbn [rbind]. now apply Htail.
  - rewrite (Raw_get_highest_view _ _ Hv).
    destruct (FormatSelector.get_highest_available_quality (rev fs))
      as [h | y] eqn:Hh; cbn [Raw.fmap rbind].
    2: { apply get_highest_available_quality_Raise in Hh as [-> _]. reflexivity. }
    pose proof (Raw_next_view _ _ _ _
                  (Raw_video_match_view e (FormatSelector.clamp_quality h)) Hv) as Hn.
    destruct (Raw.next _ (rev ds)) as [dv | y],
      (find (FormatSelector.video_match _ _) (rev fs)) as [fv |];
      try contradiction; [|subst y; reflexivity].
    cbn [rbind].
    pose proof (of_dict_getitem _ _ Hn) as (_ & _ & _ & He & _ & _).
    rewrite He. cbn [rbind].
    destruct (getitem FormatSelector.MERGE (ext fv)) as [m | y] eqn:Hm;
      cbn [rbind].
    + specialize (Htail dv fv m Hn). rewrite He in Htail. exact Htail.
    + unfold getitem in Hm.
      destruct (dict_get FormatSelector.MERGE (ext fv)); [discriminate|].
      injection Hm as <-. reflexivity.
Qed.

(** *** Selections that find no pair *)

Lemma select_without_split_first (catalog : list Format) (e : string) :
  catalog <> [] ->
  first_target_paired catalog = true ->
  has_split catalog = false ->
  select catalog e = Raise NoMatchingFormatError.
Proof.
  intros Hne Hfirst Hsplit. rewrite select_unfold.
  unfold first_target_paired, target_quality in Hfirst.
  destruct (FormatSelector.get_highest_available_quality (rev catalog))
    as [q | x] eqn:Hq.
  2: { apply get_highest_available_quality_Raise in Hq as [_ Hnil].
       apply (f_equal (@rev Format)) in Hnil. rewrite rev_involutive in Hnil.
       contradiction. }
  destruct (find (FormatSelector.video_match "" (FormatSelector.clamp_quality q))
              (rev catalog)) as [v |] eqn:Hv; [|reflexivity].
  pose proof (target_videos_In _ _ _ Hq Hv) as Hin.
  destruct (dict_get FormatSelector.MERGE (ext v)) as [paired |] eqn:Hm;
    [|discriminate].
  destruct (find (FormatSelector.audio_match paired) (rev catalog))
    as [a |] eqn:Ha; [|reflexivity].
  exfalso. apply find_some in Ha as [Hina Hma]. apply in_rev in Hina.
  apply (audio_match_ext _ _ (MERGE_values _ _ Hm)) in Hma as [Hao Hext].
  assert (Hs : has_split catalog = true); [|congruence].
  unfold has_split. apply existsb_exists. exists v. split; [assumption|].
  rewrite Hm. apply existsb_exists. exists a. split; [assumption|].
  rewrite Hao, Hext. apply String.eqb_refl.
Qed.

(** C5 (amended): for every non-empty catalog whose descriptors all carry
    the six keys the selector reads, in which the first video-only format
    at the target quality in best-first order, if there is one, has a
    container known to the merge table, and which holds no
    video-only/audio-only pair meeting the derived quality and container
    constraints, the selection fails with the no-matching-format error,
    whatever extension was requested. *)
Theorem select_keyed_without_split_fails
    (ds : list Descriptor) (fs : list Format) (e : string) :
  views ds fs ->
  fs <> [] ->
  first_target_paired fs = true ->
  has_split fs = false ->
  Raw.select ds e = Raise NoMatchingFormatError.
Proof.
  intros Hv Hne Hfirst Hsplit.
  pose proof (Raw_parser_agrees ds fs (FormatSelector.__init__ e) Hv) as Hag.
  pose proof (select_without_split_first fs e Hne Hfirst Hsplit) as Hsel.
  unfold select in Hsel. unfold Raw.select. rewrite Hsel in Hag.
  destruct (fst (Raw.parser _ _)) as [rs | x]; [contradiction|].
  cbn in Hag. now subst x.
Qed.

Lemma select_keyed_without_split_fails_witness :
  views (map to_dict catalog_video_only) catalog_video_only
  /\ catalog_video_only <> []
  /\ first_target_paired catalog_video_only = true
  /\ has_split catalog_video_only = false
  /\ Raw.select (map to_dict catalog_video_only) "" = Raise NoMatchingFormatError.
Proof.
  split; [apply views_to_dict|]. split; [discriminate|].
  split; [reflexivity|]. split; [reflexivity|].
  apply (select_keyed_without_split_fails
           (map to_dict catalog_video_only) catalog_video_only "");
    [apply views_to_dict | discriminate | reflexivity | reflexivity].
Defined.

(** C5 as stated fails in three ways.  The empty catalog holds no pair, and
    the selection raises the [ValueError] of [max] on an empty sequence.  A
    catalog whose only video format has the container [flv] holds no pair,
    and the selection raises [KeyError("flv")].  A catalog of one combined
    stream whose descriptor lacks the key [format_note] holds no pair, and
    the selection raises [KeyError("format_note")]. *)
Lemma select_without_split_raises_otherwise :
  (has_split [] = false
   /\ Raw.select [] "" = Raise (ValueError "max() arg is an empty sequence")
   /\ Raw.select [] "" <> Raise NoMatchingFormatError)
  /\ (has_split catalog_flv = false
      /\ Raw.select (map to_dict catalog_flv) "" = Raise (KeyError "flv")
      /\ Raw.select (map to_dict catalog_flv) "" <> Raise NoMatchingFormatError)
  /\ (dict_get descriptor_without_note "vcodec" = Some "avc1"
      /\ dict_get descriptor_without_note "acodec" = Some "mp4a"
      /\ Raw.select [descriptor_without_note] ""
         = Raise (KeyError "format_note")
      /\ Raw.select [descriptor_without_note] "" <> Raise NoMatchingFormatError).
Proof.
  repeat split; try reflexivity; vm_compute; discriminate.
Qed.

(** *** Missing keys *)

Lemma getitem_Raise {V} (d : dict V) (k : string) (x : exn) :
  getitem d k = Raise x -> x = KeyError k /\ dict_get d k = None.
Proof.
  unfold getitem. destruct (dict_get d k); [discriminate|].
  intros [= <-]. now split.
Qed.

Lemma getitem_Ok {V} (d : dict V) (k : string) (v : V) :
  getitem d k = Ok v -> dict_get d k = Some v.
Proof.
  unfold getitem. destruct (dict_get d k); [|discriminate]. now intros [= <-].
Qed.

Lemma Forall2_split_right {A B} (R : A -> B -> Prop) (l : list A)
    (r1 : list B) (y : B) (r2 : list B) :
  Forall2 R l (r1 ++ y :: r2)%list ->
  exists l1 x l2,
    l = (l1 ++ x :: l2)%list /\ Forall2 R l1 r1 /\ R x y /\ Forall2 R l2 r2.
Proof.
  revert l. induction r1 as [|z r1 IH]; intros l H; cbn [app] in H.
  - inversion H as [|x ? l2 ? Hx Hl2]; subst.
    exists [], x, l2. repeat split; [constructor | assumption | assumption].
  - inversion H as [|x ? l' ? Hx Hl']; subst.
    destruct (IH _ Hl') as (l1 & x' & l2 & -> & H1 & Hx' & H2).
    exists (x :: l1), x', l2. repeat split; try assumption. now constructor.
Qed.

(** X2: the highest available quality raises [KeyError("format_note")]
    when some descriptor of the list lacks the key and [ValueError] when the
    list is empty; otherwise it is the label of a descriptor of the list
    whose rank is strictly above the rank of every earlier label and at
    least the rank of every later one. *)
Theorem Raw_get_highest_available_quality_outcome (formats : list Descriptor) :
  match Raw.get_highest_available_quality formats with
  | Raise e =>
      (formats = [] /\ e = ValueError "max() arg is an empty sequence")
      \/ (e = KeyError "format_note"
          /\ exists d, In d formats /\ dict_get d "format_note" = None)
  | Ok q =>
      exists l1 d l2,
        formats = (l1 ++ d :: l2)%list
        /\ dict_get d "format_note" = Some q
        /\ (forall g, In g l1 ->
              exists n, dict_get g "format_note" = Some n
                /\ (FormatSelector._get_positive_int n
                    < FormatSelector._get_positive_int q)%Z)
        /\ (forall g, In g l2 ->
              exists n, dict_get g "format_note" = Some n
                /\ (FormatSelector._get_positive_int n
                    <= FormatSelector._get_positive_int q)%Z)
  end.
Proof.
  unfold Raw.get_highest_available_quality.
  destruct (Data.map_itemgetter "format_note" formats) as [notes | e] eqn:Hm.
  - apply map_itemgetter_Ok in Hm.
    destruct (Py.max FormatSelector._get_positive_int notes) as [q | e] eqn:Hx.
    + apply max_spec in Hx as (n1 & n2 & -> & H1 & H2).
      apply Forall2_split_right in Hm as (l1 & d & l2 & -> & Hl1 & Hd & Hl2).
      exists l1, d, l2. repeat split; [assumption | |].
      * intros g Hg. clear Hl2 H2.
        induction Hl1 as [|g' n l1 n1 Hgn _ IH]; [destruct Hg|].
        destruct Hg as [<- | Hg].
        -- exists n. split; [assumption | apply H1; now left].
        -- apply IH; [|assumption]. intros y Hy. apply H1. now right.
      * intros g Hg. clear Hl1 H1.
        induction Hl2 as [|g' n l2 n2 Hgn _ IH]; [destruct Hg|].
        destruct Hg as [<- | Hg].
        -- exists n. split; [assumption | apply H2; now left].
        -- apply IH; [|assumption]. intros y Hy. apply H2. now right.
    + left. destruct notes as [|n notes]; [|discriminate]. injection Hx as <-.
      inversion Hm. now split.
  - right. now apply map_itemgetter_Raise.
Qed.

Lemma Raw_video_match_true (x q : string) (f : Descriptor) :
  Raw.video_match x q f = Ok true ->
  (exists vc, dict_get f "vcodec" = Some vc /\ vc <> "none")
  /\ dict_get f "acodec" = Some "none"
  /\ dict_get f "format_note" = Some q
  /\ (truthy x = true -> dict_get f "ext" = Some x).
Proof.
  unfold Raw.video_match, getitem.
  destruct (dict_get f "vcodec") as [vc |]; cbn [Raw.fmap Raw.and_then];
    [|discriminate].
  destruct (String.eqb_spec vc "none") as [-> | Hvc]; cbn [negb]; [discriminate|].
  destruct (dict_get f "acodec") as [ac |]; cbn [Raw.fmap Raw.and_then];
    [|discriminate].
  destruct (String.eqb_spec ac "none") as [-> | _]; [|discriminate].
  destruct (truthy x).
  - destruct (dict_get f "ext") as [c |]; cbn [Raw.fmap Raw.and_then];
      [|discriminate].
    destruct (String.eqb_spec c x) as [-> | _]; [|discriminate].
    destruct (dict_get f "format_note") as [n |]; cbn [Raw.fmap];
      [|discriminate].
    destruct (String.eqb_spec n q) as [-> | _]; [|discriminate].
    intros _. repeat split; eauto.
  - cbn [Raw.and_then].
    destruct (dict_get f "format_note") as [n |]; cbn [Raw.fmap];
      [|discriminate].
    destruct (String.eqb_spec n q) as [-> | _]; [|discriminate].
    intros _. repeat split; eauto. discriminate.
Qed.

Lemma Raw_video_match_Raise (x q : string) (f : Descriptor) (e : exn) :
  Raw.video_match x q f = Raise e ->
  exists k, e = KeyError k /\ dict_get f k = None
    /\ In k ["vcodec"; "acodec"; "ext"; "format_note"].
Proof.
  unfold Raw.video_match, getitem.
  destruct (dict_get f "vcodec") as [vc |] eqn:H1; cbn [Raw.fmap Raw.and_then].
  2: { intros [= <-]. exists "vcodec". cbn [In].
       repeat split; [assumption | tauto]. }
  destruct (negb (vc =? "none")); [|discriminate].
  destruct (dict_get f "acodec") as [ac |] eqn:H2; cbn [Raw.fmap Raw.and_then].
  2: { intros [= <-]. exists "acodec". cbn [In].
       repeat split; [assumption | tauto]. }
  destruct (ac =? "none"); [|discriminate].
  assert (Hnote : Raw.fmap (fun n => n =? q)
                    match dict_get f "format_note" with
                    | Some v => Ok v
                    | None => Raise (KeyError "format_note")
                    end = Raise e ->
                  exists k, e = KeyError k /\ dict_get f k = None
                    /\ In k ["vcodec"; "acodec"; "ext"; "format_note"]).
  { destruct (dict_get f "format_note") eqn:H4; cbn [Raw.fmap]; [discriminate|].
    intros [= <-]. exists "format_note". cbn [In].
    repeat split; [assumption | tauto]. }
  destruct (truthy x); cbn [Raw.and_then]; [|exact Hnote].
  destruct (dict_get f "ext") as [c |] eqn:H3; cbn [Raw.fmap Raw.and_then].
  2: { intros [= <-]. exists "ext". cbn [In].
       repeat split; [assumption | tauto]. }
  destruct (c =? x); [exact Hnote | discriminate].
Qed.

Lemma Raw_audio_match_true (x : string) (f : Descriptor) :
  Raw.audio_match x f = Ok true ->
  dict_get f "vcodec" = Some "none"
  /\ (exists ac, dict_get f "acodec" = Some ac /\ ac <> "none")
  /\ (truthy x = true -> dict_get f "ext" = Some x).
Proof.
  unfold Raw.audio_match, getitem.
  destruct (dict_get f "vcodec") as [vc |]; cbn [Raw.fmap Raw.and_then];
    [|discriminate].
  destruct (String.eqb_spec vc "none") as [-> | _]; [|discriminate].
  destruct (dict_get f "acodec") as [ac |]; cbn [Raw.fmap Raw.and_then];
    [|discriminate].
  destruct (String.eqb_spec ac "none") as [-> | Hac]; cbn [negb]; [discriminate|].
  destruct (truthy x).
  - destruct (dict_get f "ext") as [c |]; cbn [Raw.fmap]; [|discriminate].
    destruct (String.eqb_spec c x) as [-> | _]; [|discriminate].
    intros _. repeat split; eauto.
  - intros _. repeat split; eauto. discriminate.
Qed.

Lemma Raw_audio_match_Raise (x : string) (f : Descriptor) (e : exn) :
  Raw.audio_match x f = Raise e ->
  exists k, e = KeyError k /\ dict_get f k = None
    /\ In k ["vcodec"; "acodec"; "ext"].
Proof.
  unfold Raw.audio_match, getitem.
  destruct (dict_get f "vcodec") as [vc |] eqn:H1; cbn [Raw.fmap Raw.and_then].
  2: { intros [= <-]. exists "vcodec". cbn [In].
       repeat split; [assumption | tauto]. }
  destruct (vc =? "none"); [|discriminate].
  destruct (dict_get f "acodec") as [ac |] eqn:H2; cbn [Raw.fmap Raw.and_then].
  2: { intros [= <-]. exists "acodec". cbn [In].
       repeat split; [assumption | tauto]. }
  destruct (negb (ac =? "none")); [|discriminate].
  destruct (truthy x); [|discriminate].
  destruct (dict_get f "ext") as [c |] eqn:H3; cbn [Raw.fmap]; [discriminate|].
  intros [= <-]. exists "ext". cbn [In]. repeat split; [assumption | tauto].
Qed.

(** The three outcomes of a first-match search whose test may raise. *)
Lemma Raw_next_outcome {A} (p : A -> result bool) (l : list A) :
  match Raw.next p l with
  | Ok x =>
      exists l1 l2,
        l = (l1 ++ x :: l2)%list /\ p x = Ok true
        /\ (forall y, In y l1 -> p y = Ok false)
  | Raise e =>
      (e = StopIteration /\ forall y, In y l -> p y = Ok false)
      \/ (exists l1 y l2,
            l = (l1 ++ y :: l2)%list /\ p y = Raise e
            /\ (forall z, In z l1 -> p z = Ok false))
  end.
Proof.
  induction l as [|x l IH]; cbn [Raw.next].
  - left. split; [reflexivity | intros y []].
  - destruct (p x) as [[|] | e] eqn:Hx.
    + exists [], l. repeat split; [assumption | intros y []].
    + destruct (Raw.next p l) as [z | e].
      * destruct IH as (l1 & l2 & -> & Hz & Hl1).
        exists (x :: l1), l2. repeat split; [assumption|].
        intros y [<- | Hy]; auto.
      * destruct IH as [[-> Hall] | (l1 & y & l2 & -> & Hy & Hl1)].
        -- left. split; [reflexivity|]. intros y [<- | Hy]; auto.
        -- right. exists (x :: l1), y, l2. repeat split; [assumption|].
           intros z [<- | Hz]; auto.
    + right. exists [], x, l. repeat split; [assumption | intros z []].
Qed.

Lemma Raw_retrieve_video_format_run formats quality extension self :
  Raw.retrieve_video_format formats quality extension self
  = (Raw.next (Raw.video_match (effective_extension self extension) quality)
       formats, self).
Proof.
  unfold effective_extension. run_raw_selector. now destruct (truthy extension).
Qed.

Lemma Raw_retrieve_audio_format_run formats extension self :
  Raw.retrieve_audio_format formats extension self
  = (Raw.next (Raw.audio_match (effective_extension self extension)) formats, self).
Proof.
  unfold effective_extension. run_raw_selector. now destruct (truthy extension).
Qed.

(** X5: the video retrieval filters by its extension argument, or by the
    selector's extension when the argument is empty, and leaves the selector
    unchanged.  It returns the first descriptor of the list that is
    video-only with the requested label (and container, when one is in
    force), every earlier descriptor having failed the filter.  It raises
    [StopIteration] when every descriptor fails the filter, and the
    [KeyError] of the first descriptor that lacks a key the filter reads on
    it when the search reaches such a descriptor before a match. *)
Theorem Raw_retrieve_video_format_outcome
    (formats : list Descriptor) (quality extension : string)
    (self : FormatSelector.t) :
  snd (Raw.retrieve_video_format formats quality extension self) = self
  /\ match fst (Raw.retrieve_video_format formats quality extension self) with
     | Ok v =>
         exists l1 l2,
           formats = (l1 ++ v :: l2)%list
           /\ (forall f, In f l1 ->
                 Raw.video_match (effective_extension self extension) quality f
                 = Ok false)
           /\ (exists vc, dict_get v "vcodec" = Some vc /\ vc <> "none")
           /\ dict_get v "acodec" = Some "none"
           /\ dict_get v "format_note" = Some quality
           /\ (truthy (effective_extension self extension) = true ->
               dict_get v "ext" = Some (effective_extension self extension))
     | Raise e =>
         (e = StopIteration
          /\ forall f, In f formats ->
               Raw.video_match (effective_extension self extension) quality f
               = Ok false)
         \/ (exists l1 f l2 k,
               formats = (l1 ++ f :: l2)%list
               /\ (forall g, In g l1 ->
                     Raw.video_match (effective_extension self extension) quality g
                     = Ok false)
               /\ dict_get f k = None
               /\ In k ["vcodec"; "acodec"; "ext"; "format_note"]
               /\ e = KeyError k)
     end.
Proof.
  rewrite Raw_retrieve_video_format_run. cbn [fst snd]. split; [reflexivity|].
  pose proof (Raw_next_outcome
                (Raw.video_match (effective_extension self extension) quality)
                formats) as H.
  destruct (Raw.next _ formats) as [v | e].
  - destruct H as (l1 & l2 & -> & Hv & Hl1).
    apply Raw_video_match_true in Hv as (Hvc & Hac & Hn & He).
    exists l1, l2. repeat split; assumption.
  - destruct H as [[-> Hall] | (l1 & f & l2 & -> & Hf & Hl1)]; [left; now split|].
    right. apply Raw_video_match_Raise in Hf as (k & -> & Hk & Hin).
    exists l1, f, l2, k. repeat split; assumption.
Qed.

(** X6: the audio retrieval filters by its extension argument, or by the
    selector's extension when the argument is empty, and leaves the selector
    unchanged.  It returns the first audio-only descriptor of the list (in
    that container, when one is in force), every earlier descriptor having
    failed the filter.  It raises [StopIteration] when every descriptor
    fails the filter, and the [KeyError] of the first descriptor that lacks
    a key the filter reads on it when the search reaches such a descriptor
    before a match. *)
Theorem Raw_retrieve_audio_format_outcome
    (formats : list Descriptor) (extension : string) (self : FormatSelector.t) :
  snd (Raw.retrieve_audio_format formats extension self) = self
  /\ match fst (Raw.retrieve_audio_format formats extension self) with
     | Ok a =>
         exists l1 l2,
           formats = (l1 ++ a :: l2)%list
           /\ (forall f, In f l1 ->
                 Raw.audio_match (effective_extension self extension) f = Ok false)
           /\ dict_get a "vcodec" = Some "none"
           /\ (exists ac, dict_get a "acodec" = Some ac /\ ac <> "none")
           /\ (truthy (effective_extension self extension) = true ->
               dict_get a "ext" = Some (effective_extension self extension))
     | Raise e =>
         (e = StopIteration
          /\ forall f, In f formats ->
               Raw.audio_match (effective_extension self extension) f = Ok false)
         \/ (exists l1 f l2 k,
               formats = (l1 ++ f :: l2)%list
               /\ (forall g, In g l1 ->
                     Raw.audio_match (effective_extension self extension) g
                     = Ok false)
               /\ dict_get f k = None
               /\ In k ["vcodec"; "acodec"; "ext"]
               /\ e = KeyError k)
     end.
Proof.
  rewrite Raw_retrieve_audio_format_run. cbn [fst snd]. split; [reflexivity|].
  pose proof (Raw_next_outcome
                (Raw.audio_match (effective_extension self extension)) formats) as H.
  destruct (Raw.next _ formats) as [a | e].
  - destruct H as (l1 & l2 & -> & Ha & Hl1).
    apply Raw_audio_match_true in Ha as (Hvc & Hac & He).
    exists l1, l2. repeat split; assumption.
  - destruct H as [[-> Hall] | (l1 & f & l2 & -> & Hf & Hl1)]; [left; now split|].
    right. apply Raw_audio_match_Raise in Hf as (k & -> & Hk & Hin).
    exists l1, f, l2, k. repeat split; assumption.
Qed.

Lemma Raw_get_highest_Raise (formats : list Descriptor) (x : exn) :
  Raw.get_highest_available_quality formats = Raise x ->
  (formats = [] /\ x = ValueError "max() arg is an empty sequence")
  \/ (x = KeyError "format_note"
      /\ exists d, In d formats /\ dict_get d "format_note" = None).
Proof.
  unfold Raw.get_highest_available_quality.
  destruct (Data.map_itemgetter "format_note" formats) as [notes | e] eqn:Hm.
  - apply map_itemgetter_Ok in Hm.
    destruct notes as [|n notes]; cbn [Py.max]; [|discriminate].
    intros [= <-]. left. inversion Hm. now split.
  - intros [= <-]. right. now apply map_itemgetter_Raise.
Qed.

Lemma Raw_next_In {A} (p : A -> result bool) (l : list A) (x : A) :
  Raw.next p l = Ok x -> In x l.
Proof.
  intros H. pose proof (Raw_next_outcome p l) as Ho. rewrite H in Ho.
  destruct Ho as (l1 & l2 & -> & _). apply in_or_app. right. now left.
Qed.

Lemma raw_parser_steps_Raise (e : string) (formats : list Descriptor) (ex : exn) :
  generator_exit (raw_parser_steps e formats) = Raise ex ->
  parser_failure e formats ex.
Proof.
  unfold parser_failure, UnavailableExtensionError, NoMatchingFormatError.
  intros H. unfold raw_parser_steps in H. cbv zeta in H.
  destruct (truthy e && negb (list_in e (concat (values EXTENSIONS)))).
  { cbn [generator_exit] in H. injection H as <-. now left. }
  right.
  assert (Hmiss : forall d k x,
            In d formats -> In k descriptor_keys -> getitem d k = Raise x ->
            generator_exit (@Raise Raw.Selection x) = Raise ex ->
            exists d k, In d formats /\ dict_get d k = None
              /\ In k descriptor_keys /\ ex = KeyError k).
  { intros d k x Hd Hk Hg Hx. apply getitem_Raise in Hg as [-> Hg].
    cbn [generator_exit] in Hx. injection Hx as <-. now exists d, k. }
  assert (Hvideo : forall q x,
            Raw.next (Raw.video_match e q) formats = Raise x ->
            generator_exit (@Raise Raw.Selection x) = Raise ex ->
            (exists d k, In d formats /\ dict_get d k = None
               /\ In k descriptor_keys /\ ex = KeyError k)
            \/ ex = RuntimeError "generator raised StopIteration").
  { intros q x Hn Hx. pose proof (Raw_next_outcome (Raw.video_match e q) formats) as Ho.
    rewrite Hn in Ho. destruct Ho as [[-> _] | (l1 & d & l2 & -> & Hd & _)].
    - cbn [generator_exit] in Hx. injection Hx as <-. now right.
    - apply Raw_video_match_Raise in Hd as (k & -> & Hk & Hin).
      cbn [generator_exit] in Hx. injection Hx as <-. left. exists d, k.
      repeat split; try assumption.
      + apply in_or_app. right. now left.
      + unfold descriptor_keys. cbn [In] in *. tauto. }
  assert (Haudio : forall y x,
            Raw.next (Raw.audio_match y) formats = Raise x ->
            generator_exit (@Raise Raw.Selection x) = Raise ex ->
            (exists d k, In d formats /\ dict_get d k = None
               /\ In k descriptor_keys /\ ex = KeyError k)
            \/ ex = RuntimeError "generator raised StopIteration").
  { intros y x Hn Hx. pose proof (Raw_next_outcome (Raw.audio_match y) formats) as Ho.
    rewrite Hn in Ho. destruct Ho as [[-> _] | (l1 & d & l2 & -> & Hd & _)].
    - cbn [generator_exit] in Hx. injection Hx as <-. now right.
    - apply Raw_audio_match_Raise in Hd as (k & -> & Hk & Hin).
      cbn [generator_exit] in Hx. injection Hx as <-. left. exists d, k.
      repeat split; try assumption.
      + apply in_or_app. right. now left.
      + unfold descriptor_keys. cbn [In] in *. tauto. }
  assert (Htail : forall v y,
            In v formats ->
            generator_exit
              (rbind (Raw.next (Raw.audio_match y) formats) (fun audio =>
               rbind (getitem v "format_id") (fun video_id =>
               rbind (getitem audio "format_id") (fun audio_id =>
               rbind (getitem v "ext") (fun video_ext =>
               rbind (getitem v "protocol") (fun video_protocol =>
               rbind (getitem audio "protocol") (fun audio_protocol =>
               Ok {| Raw.sel_format_id := video_id ++ "+" ++ audio_id;
                     Raw.sel_ext := video_ext;
                     Raw.requested_formats := [v; audio];
                     Raw.sel_protocol := video_protocol ++ "+" ++ audio_protocol |}
               )))))))
            = Raise ex ->
            (exists d k, In d formats /\ dict_get d k = None
               /\ In k descriptor_keys /\ ex = KeyError k)
            \/ ex = RuntimeError "generator raised StopIteration").
  { intros v y Hv Ht.
    destruct (Raw.next (Raw.audio_match y) formats) as [a | x] eqn:Ha;
      cbn [rbind] in Ht; [|now apply (Haudio y x)].
    apply Raw_next_In in Ha. left.
    destruct (getitem v "format_id") as [vi | x] eqn:E1; cbn [rbind] in Ht;
      [|apply (Hmiss v "format_id" x); auto; cbn; tauto].
    destruct (getitem a "format_id") as [ai | x] eqn:E2; cbn [rbind] in Ht;
      [|apply (Hmiss a "format_id" x); auto; cbn; tauto].
    destruct (getitem v "ext") as [vx | x] eqn:E3; cbn [rbind] in Ht;
      [|apply (Hmiss v "ext" x); auto; cbn; tauto].
    destruct (getitem v "protocol") as [vp | x] eqn:E4; cbn [rbind] in Ht;
      [|apply (Hmiss v "protocol" x); auto; cbn; tauto].
    destruct (getitem a "protocol") as [ap | x] eqn:E5; cbn [rbind] in Ht;
      [|apply (Hmiss a "protocol" x); auto; cbn; tauto].
    discriminate. }
  destruct (list_in e ["mp3"; "m4a"; "webm"; "wav"]); cbn [rbind] in H.
  - destruct (Raw.next (Raw.video_match e "144p") formats) as [v | x] eqn:Hv;
      cbn [rbind] in H.
    + apply Raw_next_In in Hv.
      destruct (Htail v _ Hv H) as [Hk | ->]; [right; now left | now right; right; right].
    + destruct (Hvideo _ _ Hv H) as [Hk | ->]; [right; now left | now right; right; right].
  - destruct (Raw.get_highest_available_quality formats) as [h | x] eqn:Hh;
      cbn [rbind Raw.fmap] in H.
    2: { apply Raw_get_highest_Raise in Hh as [[-> ->] | [-> (d & Hd & Hk)]];
           cbn [generator_exit] in H; injection H as <-.
         - now left.
         - right; left. exists d, "format_note". repeat split; try assumption.
           cbn. tauto. }
    destruct (Raw.next (Raw.video_match e (FormatSelector.clamp_quality h)) formats)
      as [v | x] eqn:Hv; cbn [rbind] in H.
    2: { destruct (Hvideo _ _ Hv H) as [Hk | ->];
           [right; now left | now right; right; right]. }
    apply Raw_next_In in Hv.
    destruct (getitem v "ext") as [c | x] eqn:Hc; cbn [rbind] in H.
    2: { right; left. apply (Hmiss v "ext" x); auto. cbn. tauto. }
    destruct (getitem FormatSelector.MERGE c) as [m | x] eqn:Hm; cbn [rbind] in H.
    + specialize (Htail v (if truthy m then m else e) Hv).
      rewrite Hc in Htail. cbn [rbind] in Htail.
      destruct (Htail H) as [Hk | ->]; [right; now left | now right; right; right].
    + apply getitem_Raise in Hm as [-> Hm]. cbn [generator_exit] in H.
      injection H as <-. apply getitem_Ok in Hc. apply MERGE_keys in Hm as [H1 H2].
      right; right; left. exists v, c. now repeat split.
Qed.

(** X9: the parser fails only in five ways: the unavailable-extension
    error for the selector's extension, the [ValueError] of [max] on an
    empty catalog, the [KeyError] of one of the six keys on a descriptor of
    the catalog that lacks it, the [KeyError] of a container of the catalog
    that is neither [mp4] nor [webm], or the exhausted search; a bare
    [StopIteration] never leaves it. *)
Theorem Raw_parser_failure_kinds
    (ctx : Raw.Ctx) (self : FormatSelector.t) (ex : exn) :
  fst (Raw.parser ctx self) = Raise ex ->
  parser_failure (FormatSelector.extension self) (Raw.ctx_get_formats ctx) ex
  /\ ex <> StopIteration.
Proof.
  rewrite Raw_parser_unfold. cbn [fst]. intros H. split.
  - apply raw_parser_steps_Raise in H. unfold parser_failure in *.
    destruct H as [H | [[H Hnil] | [(d & k & Hd & Hk) | [(d & c & Hd & Hc) | H]]]].
    + now left.
    + right; left. split; [assumption|].
      apply (f_equal (@rev Descriptor)) in Hnil. now rewrite rev_involutive in Hnil.
    + right; right; left. exists d, k. apply in_rev in Hd. tauto.
    + right; right; right; left. exists d, c. apply in_rev in Hd. tauto.
    + now right; right; right; right.
  - intros ->. destruct (raw_parser_steps _ _) as [r | []]; discriminate.
Qed.

Lemma Raw_parser_failure_kinds_witness :
  fst (Raw.parser (Raw.mkCtx (Some catalog_missing_id)) (FormatSelector.mk ""))
  = Raise (KeyError "format_id")
  /\ parser_failure (FormatSelector.extension (FormatSelector.mk ""))
       (Raw.ctx_get_formats (Raw.mkCtx (Some catalog_missing_id)))
       (KeyError "format_id")
  /\ KeyError "format_id" <> StopIteration.
Proof.
  split; [reflexivity|].
  apply (Raw_parser_failure_kinds (Raw.mkCtx (Some catalog_missing_id))
           (FormatSelector.mk "") (KeyError "format_id")).
  reflexivity.
Defined.
